(** * Universal Accessibility Companion: a shallow embedding

  The development follows the TypeScript sources:

  - [Types]          : [types.ts] (the data model);
  - [Constants]      : [constants.ts] (the system instruction);
  - [GeminiService]  : [services/geminiService.ts] ([analyzeContent]);
  - [App]            : [App.tsx] (the session controller: [handleSubmit],
                       [addToHistory], [loadHistoryItem], [clearHistory]);
  - [OutputDisplay]  : [components/OutputDisplay.tsx] ([renderContent]);
  - [Session]        : the events of a session, handled one at a time, with
                       the calls of [handleSubmit] that wait for an answer.

  File selection, voice dictation and read-aloud have modules of their
  own ([FileInput], [VoiceInput], [ReadAloud]).  The effect that loads the
  saved history on mount, the export of the response and the markup of the
  page are outside this development.

  JavaScript strings are sequences of UTF-16 code units.  They are
  modelled by [string], one [ascii] per code unit, which covers the code
  units 0..255.  Effects (exceptions, the console, the model endpoint,
  [localStorage], [Date.now], the React state) are made explicit with a
  small state-and-exception monad. *)

From Stdlib Require Import Ascii String Floats.
From stdpp Require Import base strings gmap list pretty.

Set Default Proof Using "Type".

(* ===================================================================== *)
(** * JavaScript string primitives used by the sources                   *)
(* ===================================================================== *)

Module JsString.

(** The double quote and the line feed, by code unit. *)
Definition dquote : string := String "034"%char EmptyString.
Definition LF : string := String "010"%char EmptyString.

(** Truthiness of a string value: every string but the empty one. *)
Definition truthy (s : string) : bool :=
  match s with
  | EmptyString => false
  | String _ _ => true
  end.

(** Truthiness of [string | undefined] and of [string | null]. *)
Definition truthy_opt (o : option string) : bool :=
  match o with
  | None => false
  | Some s => truthy s
  end.

(** [a || b] where [a : string | undefined] and [b : string]. *)
Definition or_else (a : option string) (b : string) : string :=
  match a with
  | Some s => if truthy s then s else b
  | None => b
  end.

(** [a || undefined] where [a : string | null]. *)
Definition or_undefined (a : option string) : option string :=
  if truthy_opt a then a else None.

(** [s.startsWith(p)]. *)
Fixpoint startsWith (p s : string) : bool :=
  match p, s with
  | EmptyString, _ => true
  | String _ _, EmptyString => false
  | String a p', String b s' => if Ascii.eqb a b then startsWith p' s' else false
  end.

(** [s.includes(p)]. *)
Fixpoint includes (p s : string) : bool :=
  startsWith p s ||
  match s with
  | EmptyString => false
  | String _ s' => includes p s'
  end.

(** [s.slice(n)] for [0 <= n]. *)
Fixpoint drop (n : nat) (s : string) : string :=
  match n, s with
  | O, _ => s
  | S _, EmptyString => EmptyString
  | S n', String _ s' => drop n' s'
  end.

(** ECMAScript WhiteSpace and LineTerminator code units below 256:
    TAB, LF, VT, FF, CR, SPACE and NO-BREAK SPACE.  The same set is
    matched by the regular expression class [\s]. *)
Definition isWhiteSpace (c : ascii) : bool :=
  match nat_of_ascii c with
  | 9 | 10 | 11 | 12 | 13 | 32 | 160 => true
  | _ => false
  end.

(** [s.trimStart()], [s.trimEnd()] and [s.trim()]. *)
Fixpoint trimStart (s : string) : string :=
  match s with
  | EmptyString => EmptyString
  | String c s' => if isWhiteSpace c then trimStart s' else s
  end.

Fixpoint trimEnd (s : string) : string :=
  match s with
  | EmptyString => EmptyString
  | String c s' =>
      match trimEnd s' with
      | EmptyString => if isWhiteSpace c then EmptyString else String c EmptyString
      | t => String c t
      end
  end.

Definition trim (s : string) : string := trimEnd (trimStart s).

(** [s.replace(pat, rep)] for a string pattern: only the first
    occurrence of [pat] is replaced.  ([rep] is inserted literally; the
    sources only pass the empty replacement, which has no [$] pattern.) *)
Fixpoint replace (pat rep s : string) : string :=
  if startsWith pat s then rep +:+ drop (String.length pat) s
  else match s with
       | EmptyString => EmptyString
       | String c s' => String c (replace pat rep s')
       end.

(** [s.split(sep)] for a non-empty separator: the occurrences of [sep]
    are found scanning from the left and do not overlap.  [go skip cur s]
    reads [s] with [cur] the piece read so far; [skip] counts the code
    units of a separator occurrence that remain to be passed over. *)
Fixpoint split_go (sep : string) (skip : nat) (cur s : string) : list string :=
  match s with
  | EmptyString => [cur]
  | String c s' =>
      match skip with
      | S k => split_go sep k cur s'
      | O =>
          if startsWith sep s
          then cur :: split_go sep (Nat.pred (String.length sep)) EmptyString s'
          else split_go sep O (cur +:+ String c EmptyString) s'
      end
  end.

(** With the empty separator [split] yields the code units one by one. *)
Fixpoint chars (s : string) : list string :=
  match s with
  | EmptyString => []
  | String c s' => String c EmptyString :: chars s'
  end.

Definition split (sep s : string) : list string :=
  match sep with
  | EmptyString => chars s
  | String _ _ => split_go sep O EmptyString s
  end.

End JsString.

(* ===================================================================== *)
(** * Exceptions and state                                               *)
(* ===================================================================== *)

Module Runtime.

(** A thrown value.  Every value thrown in the sources, and by the
    client library and the storage, is an object; what the handlers read
    of it is its [message] property ([undefined] when it has none). *)
Record JsError : Type := { message : option string }.

(** [new Error(msg)]. *)
Definition Error (msg : string) : JsError := {| message := Some msg |}.

(** How an evaluation completes. *)
Inductive Completion (A : Type) : Type :=
| Normal (a : A)
| Throw (e : JsError).
Arguments Normal {A} a.
Arguments Throw {A} e.

(** Computations over a state [S] that may throw.  State changes made
    before a throw are kept, as in JavaScript. *)
Definition M (S A : Type) : Type := S -> Completion A * S.

Definition ret {S A} (a : A) : M S A := fun s => (Normal a, s).

Definition throw {S A} (e : JsError) : M S A := fun s => (Throw e, s).

Definition bind {S A B} (m : M S A) (k : A -> M S B) : M S B :=
  fun s =>
    match m s with
    | (Normal a, s') => k a s'
    | (Throw e, s') => (Throw e, s')
    end.

(** [try { m } catch (e) { h e }]. *)
Definition try_catch {S A} (m : M S A) (h : JsError -> M S A) : M S A :=
  fun s =>
    match m s with
    | (Normal a, s') => (Normal a, s')
    | (Throw e, s') => h e s'
    end.

Definition get {S} : M S S := fun s => (Normal s, s).
Definition modify {S} (f : S -> S) : M S unit := fun s => (Normal tt, f s).

(** The state reached, and the completion. *)
Definition exec {S A} (m : M S A) (s : S) : S := snd (m s).
Definition eval {S A} (m : M S A) (s : S) : Completion A := fst (m s).

End Runtime.

Import Runtime.

Declare Scope js_scope.
Delimit Scope js_scope with js.
Notation "x <- m ;; k" := (bind m (fun x => k))
(at level 100, m at next level, right associativity) : js_scope.
Notation "m ;; k" := (bind m (fun _ => k))
(at level 100, right associativity) : js_scope.
Open Scope js_scope.

(* ===================================================================== *)
(** * types.ts                                                            *)
(* ===================================================================== *)

Module Types.

Inductive AppMode : Type := DESCRIBE | SIMPLIFY | GUIDE.

(** The string value of an enum member. *)
Definition AppMode_value (m : AppMode) : string :=
  match m with
  | DESCRIBE => "DESCRIBE"
  | SIMPLIFY => "SIMPLIFY"
  | GUIDE => "GUIDE"
  end.

(** An optional property [p?: string] is [None] when absent. *)
Module AnalysisRequest.
Record t : Type := {
  text : string;
  imageBase64 : option string;
  imageMimeType : option string;
  mode : AppMode
}.
End AnalysisRequest.

Module AnalysisResponse.
Record t : Type := {
  markdown : string;
  error : option string
}.
End AnalysisResponse.

Module HistoryItem.
Record t : Type := {
  id : string;
  timestamp : Z;
  mode : AppMode;
  inputText : string;
  response : string;
  hasImage : bool
}.
End HistoryItem.

End Types.

Import Types.

(* ===================================================================== *)
(** * constants.ts                                                        *)
(* ===================================================================== *)

Module Constants.

Import JsString.

Definition SYSTEM_INSTRUCTION : string :=
"You are Universal Accessibility Companion, an AI assistant built with Gemini 3 Pro.

Goal: Help people with visual, reading, or cognitive challenges understand and interact with digital content. Always prioritize clarity, safety, and respect.

Target Users: People with low vision/blindness (screen readers), dyslexia, cognitive overload, or anyone needing step-by-step guidance.

Modes:
1. Describe: Rich, concise description of visual content/layout. Focus on structure (headings, buttons, forms). Mention relative positions only when helpful.
2. Simplify: Extract text, rewrite in plain language. Short sentences, bullet points. Preserve facts but simplify wording.
3. Guide: Treat input as interactive. Identify key elements. Provide step-by-step instructions (e.g., " +:+ dquote +:+ "Step 1: Locate button..." +:+ dquote +:+ "). Highlight errors/confusing elements.

General Style:
- Structured format with headings (##) and bullet points (*).
- Short paragraphs.
- No technical jargon unless requested.
- Never fabricate elements.
- If quality is low, explain limitations.

Safety:
- No medical/legal/financial advice (add disclaimer if summarizing such content).
- Be supportive, respectful, calm.

Tone: Accessibility-first. Choose clarity over fancy language.".

End Constants.

(* ===================================================================== *)
(** * The collaborators: the model endpoint, the clock, the storage      *)
(* ===================================================================== *)

(** The part of the [@google/genai] client that [analyzeContent] uses. *)
Module GenAI.

Inductive Part : Type :=
| InlineData (mimeType data : string)   (* { inlineData: { mimeType, data } } *)
| Text (text : string).                  (* { text } *)

Record GenerateContentParameters : Type := {
  model : string;
  contents : list Part;                  (* contents.parts *)
  systemInstruction : string;            (* config.systemInstruction *)
  temperature : float                    (* config.temperature *)
}.

(** [response.text] is [undefined] when the reply carries no text. *)
Record GenerateContentResponse : Type := { text : option string }.

End GenAI.

Module Platform.

(** What the program cannot decide: the configured credential, what the
    endpoint answers to a request (given the credential and the requests
    sent before), the readings of the clock, when the storage refuses a
    write, and what the user answers to a confirmation dialog. *)
Record Env : Type := {
  API_KEY : option string;               (* process.env.API_KEY *)
  generateContent :
    list GenAI.GenerateContentParameters -> string ->
    GenAI.GenerateContentParameters -> Completion GenAI.GenerateContentResponse;
  Date_now : nat -> Z;                   (* the n-th reading of Date.now() *)
  setItem_fails : gmap string string -> string -> string -> option JsError;
  window_confirm : string -> bool
}.

(** The state outside the component: the storage, what was written on
    the console with [console.error], the requests sent to the endpoint,
    and how many times the clock was read. *)
Record Browser : Type := {
  localStorage : gmap string string;
  console : list (string * JsError);
  network : list GenAI.GenerateContentParameters;
  clockReads : nat
}.

Definition console_error (label : string) (e : JsError) : M Browser unit :=
  modify (fun b =>
    {| localStorage := localStorage b;
       console := console b ++ [(label, e)];
       network := network b;
       clockReads := clockReads b |}).

(** [localStorage.setItem(key, value)]: throws when the storage refuses
    the write (a full quota, a disabled storage), stores otherwise. *)
Definition localStorage_setItem (env : Env) (key value : string) : M Browser unit :=
  fun b =>
    match setItem_fails env (localStorage b) key value with
    | Some e => (Throw e, b)
    | None =>
        (Normal tt,
         {| localStorage := <[key := value]> (localStorage b);
            console := console b;
            network := network b;
            clockReads := clockReads b |})
    end.

(** [localStorage.removeItem(key)]. *)
Definition localStorage_removeItem (key : string) : M Browser unit :=
  modify (fun b =>
    {| localStorage := delete key (localStorage b);
       console := console b;
       network := network b;
       clockReads := clockReads b |}).

(** [Date.now()]. *)
Definition Date_now_read (env : Env) : M Browser Z :=
  fun b =>
    (Normal (Date_now env (clockReads b)),
     {| localStorage := localStorage b;
        console := console b;
        network := network b;
        clockReads := S (clockReads b) |}).

(** [await client.models.generateContent(params)] for the client built
    with [apiKey]: the request is sent, then the endpoint answers. *)
Definition models_generateContent (env : Env) (apiKey : string)
    (params : GenAI.GenerateContentParameters) : M Browser GenAI.GenerateContentResponse :=
  fun b =>
    (generateContent env (network b) apiKey params,
     {| localStorage := localStorage b;
        console := console b;
        network := network b ++ [params];
        clockReads := clockReads b |}).

End Platform.

Import Platform.

(* ===================================================================== *)
(** * services/geminiService.ts                                           *)
(* ===================================================================== *)

Module GeminiService.

Import JsString.

Section WithEnv.

Variable env : Env.

(** [new GoogleGenAI({ apiKey })]: the client is determined by the key it
    is built with, and building it does not fail. *)
Definition getClient : M Browser string :=
  match API_KEY env with
  | Some apiKey =>
      if truthy apiKey then ret apiKey
      else throw (Error "API Key not found in environment variables")
  | None => throw (Error "API Key not found in environment variables")
  end.

Definition modelId : string := "gemini-3-pro-preview".

(** The content parts, as lines 21 to 56 build them: [parts] starts
    empty, the image part is pushed when both fields are truthy, then the
    prompt is assembled and pushed. *)
Definition buildParts (request : AnalysisRequest.t) : list GenAI.Part :=
  let parts : list GenAI.Part := [] in
  let parts :=
    match AnalysisRequest.imageBase64 request, AnalysisRequest.imageMimeType request with
    | Some imageBase64, Some imageMimeType =>
        if truthy imageBase64 && truthy imageMimeType then
          let base64Data := or_else (split "," imageBase64 !! 1) imageBase64 in
          parts ++ [GenAI.InlineData imageMimeType base64Data]
        else parts
    | _, _ => parts
    end in
  let prompt := EmptyString in
  let prompt :=
    if truthy (AnalysisRequest.text request)
    then prompt +:+ ("User Input: " +:+ dquote +:+ AnalysisRequest.text request +:+ dquote +:+ LF +:+ LF)
    else prompt +:+ ("Analyze the provided image." +:+ LF +:+ LF) in
  let prompt :=
    match AnalysisRequest.mode request with
    | DESCRIBE =>
        prompt +:+ "Task: Perform a 'Describe' analysis. Focus on layout, sections, and accessibility relevant details."
    | SIMPLIFY =>
        prompt +:+ "Task: Perform a 'Simplify' analysis. Extract text and rewrite it in plain, simple language with bullet points."
    | GUIDE =>
        prompt +:+ "Task: Perform a 'Guide' analysis. Provide step-by-step instructions on how to interact with this content."
    end in
  parts ++ [GenAI.Text prompt].

Definition requestParameters (request : AnalysisRequest.t) : GenAI.GenerateContentParameters :=
  {| GenAI.model := modelId;
     GenAI.contents := buildParts request;
     GenAI.systemInstruction := Constants.SYSTEM_INSTRUCTION;
     GenAI.temperature := 0x1.999999999999ap-3%float (* 0.2 *) |}.

Definition analyzeContent (request : AnalysisRequest.t) : M Browser AnalysisResponse.t :=
  try_catch
    (client <- getClient ;;
     response <- models_generateContent env client (requestParameters request) ;;
     match GenAI.text response with
     | Some text =>
         if negb (truthy text) then throw (Error "No response generated from the model.")
         else ret {| AnalysisResponse.markdown := text; AnalysisResponse.error := None |}
     | None => throw (Error "No response generated from the model.")
     end)
    (fun error =>
       console_error "Gemini API Error:" error ;;
       ret {| AnalysisResponse.markdown := EmptyString;
              AnalysisResponse.error :=
                Some (or_else (message error)
                        "An unexpected error occurred while processing your request.") |}).

(** [analyzeContent] is an [async] function: a call runs up to
    [await client.models.generateContent(...)], where it is suspended with
    the request sent, and goes on when the answer arrives; other events may
    be handled in between.  Without a credential it never reaches the
    [await]: the exception of [getClient] is caught and the response is
    ready at once. *)
Inductive Started : Type :=
| Finished (response : AnalysisResponse.t)
| Awaiting (answer : Completion GenAI.GenerateContentResponse).

(** The [catch] block. *)
Definition catchBlock (error : JsError) : M Browser AnalysisResponse.t :=
  console_error "Gemini API Error:" error ;;
  ret {| AnalysisResponse.markdown := EmptyString;
         AnalysisResponse.error :=
           Some (or_else (message error)
                   "An unexpected error occurred while processing your request.") |}.

(** The call of [client.models.generateContent]: the request is sent,
    and the answer that the endpoint will give is what the caller awaits. *)
Definition sendRequest (apiKey : string) (params : GenAI.GenerateContentParameters)
  : M Browser (Completion GenAI.GenerateContentResponse) :=
  fun b =>
    (Normal (generateContent env (network b) apiKey params),
     {| localStorage := localStorage b;
        console := console b;
        network := network b ++ [params];
        clockReads := clockReads b |}).

(** The arrival of the awaited answer: a value, or an exception thrown
    at the [await]. *)
Definition awaited (answer : Completion GenAI.GenerateContentResponse)
  : M Browser GenAI.GenerateContentResponse :=
  fun b => (answer, b).

(** [analyzeContent] up to its [await]. *)
Definition analyzeContent_start (request : AnalysisRequest.t) : M Browser Started :=
  try_catch
    (client <- getClient ;;
     answer <- sendRequest client (requestParameters request) ;;
     ret (Awaiting answer))
    (fun error =>
       response <- catchBlock error ;;
       ret (Finished response)).

(** [analyzeContent] from its [await] on. *)
Definition analyzeContent_resume (answer : Completion GenAI.GenerateContentResponse)
  : M Browser AnalysisResponse.t :=
  try_catch
    (response <- awaited answer ;;
     match GenAI.text response with
     | Some text =>
         if negb (truthy text) then throw (Error "No response generated from the model.")
         else ret {| AnalysisResponse.markdown := text; AnalysisResponse.error := None |}
     | None => throw (Error "No response generated from the model.")
     end)
    catchBlock.

End WithEnv.

End GeminiService.

(* ===================================================================== *)
(** * JSON.stringify, for the values the history holds                    *)
(* ===================================================================== *)

Module JSON.

Import JsString.

Definition backslash : string := String "092"%char EmptyString.

Definition hexDigit (n : nat) : ascii :=
  ascii_of_nat (if Nat.ltb n 10 then 48 + n else 87 + n).

(** QuoteJSONString, one code unit at a time. *)
Definition escapeUnit (c : ascii) : string :=
  match nat_of_ascii c with
  | 8 => backslash +:+ "b"
  | 9 => backslash +:+ "t"
  | 10 => backslash +:+ "n"
  | 12 => backslash +:+ "f"
  | 13 => backslash +:+ "r"
  | 34 => backslash +:+ dquote
  | 92 => backslash +:+ backslash
  | n =>
      if Nat.ltb n 32
      then backslash +:+ "u00" +:+ String (hexDigit (n / 16)) (String (hexDigit (n mod 16)) EmptyString)
      else String c EmptyString
  end.

Fixpoint escape (s : string) : string :=
  match s with
  | EmptyString => EmptyString
  | String c s' => escapeUnit c +:+ escape s'
  end.

Definition quoteString (s : string) : string := dquote +:+ escape s +:+ dquote.

(** An integral number prints in decimal (below 10^21 in absolute value,
    which holds for every reading of a clock in milliseconds). *)
Definition number (n : Z) : string := pretty n.

Definition boolean (b : bool) : string := if b then "true" else "false".

Definition property (name value : string) : string :=
  quoteString name +:+ ":" +:+ value.

(** The properties come in the order in which the object literal of
    [addToHistory] lists them. *)
Definition stringifyItem (item : HistoryItem.t) : string :=
  "{" +:+ property "id" (quoteString (HistoryItem.id item))
  +:+ "," +:+ property "timestamp" (number (HistoryItem.timestamp item))
  +:+ "," +:+ property "mode" (quoteString (AppMode_value (HistoryItem.mode item)))
  +:+ "," +:+ property "inputText" (quoteString (HistoryItem.inputText item))
  +:+ "," +:+ property "response" (quoteString (HistoryItem.response item))
  +:+ "," +:+ property "hasImage" (boolean (HistoryItem.hasImage item))
  +:+ "}".

Fixpoint joinComma (l : list string) : string :=
  match l with
  | [] => EmptyString
  | [x] => x
  | x :: l' => x +:+ "," +:+ joinComma l'
  end.

Definition stringify (history : list HistoryItem.t) : string :=
  "[" +:+ joinComma (map stringifyItem history) +:+ "]".

End JSON.

(* ===================================================================== *)
(** * App.tsx: the session controller                                     *)
(* ===================================================================== *)

Module App.

Import JsString.

(** The state variables of the component, one field per [useState]. *)
Record AppState : Type := {
  selectedMode : AppMode;
  inputText : string;
  selectedImage : option string;         (* string | null *)
  imageMimeType : option string;         (* string | null *)
  isAnalyzing : bool;
  responseContent : string;
  error : option string;                 (* string | null *)
  history : list HistoryItem.t;
  showHistory : bool;
  isListening : bool
}.

(** The initial values passed to [useState]. *)
Definition initialState : AppState :=
  {| selectedMode := DESCRIBE; inputText := EmptyString; selectedImage := None;
     imageMimeType := None; isAnalyzing := false; responseContent := EmptyString;
     error := None; history := []; showHistory := false; isListening := false |}.

Record World : Type := {
  app : AppState;
  browser : Browser
}.

(** A computation on the browser state, run inside the component. *)
Definition liftBrowser {A} (m : M Browser A) : M World A :=
  fun w =>
    let (r, b') := m (browser w) in
    (r, {| app := app w; browser := b' |}).

Definition setApp (f : AppState -> AppState) : M World unit :=
  modify (fun w => {| app := f (app w); browser := browser w |}).

(** The state setters. *)
Definition setSelectedMode (v : AppMode) : M World unit :=
  setApp (fun s =>
    {| selectedMode := v; inputText := inputText s; selectedImage := selectedImage s;
       imageMimeType := imageMimeType s; isAnalyzing := isAnalyzing s;
       responseContent := responseContent s; error := error s; history := history s;
       showHistory := showHistory s; isListening := isListening s |}).

Definition setInputText (v : string) : M World unit :=
  setApp (fun s =>
    {| selectedMode := selectedMode s; inputText := v; selectedImage := selectedImage s;
       imageMimeType := imageMimeType s; isAnalyzing := isAnalyzing s;
       responseContent := responseContent s; error := error s; history := history s;
       showHistory := showHistory s; isListening := isListening s |}).

Definition setSelectedImage (v : option string) : M World unit :=
  setApp (fun s =>
    {| selectedMode := selectedMode s; inputText := inputText s; selectedImage := v;
       imageMimeType := imageMimeType s; isAnalyzing := isAnalyzing s;
       responseContent := responseContent s; error := error s; history := history s;
       showHistory := showHistory s; isListening := isListening s |}).

Definition setImageMimeType (v : option string) : M World unit :=
  setApp (fun s =>
    {| selectedMode := selectedMode s; inputText := inputText s; selectedImage := selectedImage s;
       imageMimeType := v; isAnalyzing := isAnalyzing s;
       responseContent := responseContent s; error := error s; history := history s;
       showHistory := showHistory s; isListening := isListening s |}).

Definition setIsAnalyzing (v : bool) : M World unit :=
  setApp (fun s =>
    {| selectedMode := selectedMode s; inputText := inputText s; selectedImage := selectedImage s;
       imageMimeType := imageMimeType s; isAnalyzing := v;
       responseContent := responseContent s; error := error s; history := history s;
       showHistory := showHistory s; isListening := isListening s |}).

Definition setResponseContent (v : string) : M World unit :=
  setApp (fun s =>
    {| selectedMode := selectedMode s; inputText := inputText s; selectedImage := selectedImage s;
       imageMimeType := imageMimeType s; isAnalyzing := isAnalyzing s;
       responseContent := v; error := error s; history := history s;
       showHistory := showHistory s; isListening := isListening s |}).

Definition setError (v : option string) : M World unit :=
  setApp (fun s =>
    {| selectedMode := selectedMode s; inputText := inputText s; selectedImage := selectedImage s;
       imageMimeType := imageMimeType s; isAnalyzing := isAnalyzing s;
       responseContent := responseContent s; error := v; history := history s;
       showHistory := showHistory s; isListening := isListening s |}).

Definition setHistory (v : list HistoryItem.t) : M World unit :=
  setApp (fun s =>
    {| selectedMode := selectedMode s; inputText := inputText s; selectedImage := selectedImage s;
       imageMimeType := imageMimeType s; isAnalyzing := isAnalyzing s;
       responseContent := responseContent s; error := error s; history := v;
       showHistory := showHistory s; isListening := isListening s |}).

Definition setShowHistory (v : bool) : M World unit :=
  setApp (fun s =>
    {| selectedMode := selectedMode s; inputText := inputText s; selectedImage := selectedImage s;
       imageMimeType := imageMimeType s; isAnalyzing := isAnalyzing s;
       responseContent := responseContent s; error := error s; history := history s;
       showHistory := v; isListening := isListening s |}).

Definition storageKey : string := "accessibility_app_history".

Section Handlers.

Variable env : Env.

(** The handlers are closures created by a render: the state variables
    they read are those of that render, [render] below, whatever the
    setters have been given since. *)
Variable render : AppState.

Definition addToHistory (text response : string) : M World unit :=
  id <- liftBrowser (Date_now_read env) ;;
  timestamp <- liftBrowser (Date_now_read env) ;;
  let newItem :=
    {| HistoryItem.id := pretty id;                      (* Date.now().toString() *)
       HistoryItem.timestamp := timestamp;
       HistoryItem.mode := selectedMode render;
       HistoryItem.inputText := text;
       HistoryItem.response := response;
       HistoryItem.hasImage := truthy_opt (selectedImage render) (* !!selectedImage *) |} in
  let updatedHistory := newItem :: history render in
  setHistory updatedHistory ;;
  try_catch
    (liftBrowser (localStorage_setItem env storageKey (JSON.stringify updatedHistory)))
    (fun e => liftBrowser (console_error "Failed to save history - likely quota exceeded" e)).

Definition loadHistoryItem (item : HistoryItem.t) : M World unit :=
  setSelectedMode (HistoryItem.mode item) ;;
  setInputText (HistoryItem.inputText item) ;;
  setResponseContent (HistoryItem.response item) ;;
  setError None ;;
  setShowHistory false ;;
  if HistoryItem.hasImage item then
    setSelectedImage None ;;
    setImageMimeType None
  else ret tt.

Definition clearHistory : M World unit :=
  if window_confirm env "Are you sure you want to clear your history?" then
    setHistory [] ;;
    liftBrowser (localStorage_removeItem storageKey)
  else ret tt.

(** The [request] object that [handleSubmit] builds. *)
Definition request : AnalysisRequest.t :=
  {| AnalysisRequest.text := inputText render;
     AnalysisRequest.imageBase64 := or_undefined (selectedImage render);
     AnalysisRequest.imageMimeType := or_undefined (imageMimeType render);
     AnalysisRequest.mode := selectedMode render |}.

(** [handleSubmit] is an [async] function.  A call runs up to
    [await analyzeContent(request)] and is suspended there while the
    request is pending; it goes on when the answer arrives, with the state
    variables of the render that created it, whatever was handled in
    between.  [handleSubmit_begin] is the first part: its result is the
    answer awaited, or [None] when the call is over (the guard rejected
    the submission, or [analyzeContent] returned without waiting, in which
    case the second part follows at once).  [e.preventDefault()] touches
    nothing that is modelled here. *)
Definition handleSubmit_finish (result : AnalysisResponse.t) : M World unit :=
  setIsAnalyzing false ;;
  if truthy_opt (AnalysisResponse.error result) then
    setError (AnalysisResponse.error result)
  else
    setResponseContent (AnalysisResponse.markdown result) ;;
    addToHistory (inputText render) (AnalysisResponse.markdown result).

Definition handleSubmit_begin : M World (option (Completion GenAI.GenerateContentResponse)) :=
  if negb (truthy (inputText render)) && negb (truthy_opt (selectedImage render)) then
    setError (Some "Please provide either text or an image to analyze.") ;;
    ret None
  else
    setIsAnalyzing true ;;
    setError None ;;
    setResponseContent EmptyString ;;
    started <- liftBrowser (GeminiService.analyzeContent_start env request) ;;
    match started with
    | GeminiService.Finished result => handleSubmit_finish result ;; ret None
    | GeminiService.Awaiting answer => ret (Some answer)
    end.

(** The second part, run when the answer arrives. *)
Definition handleSubmit_resume (answer : Completion GenAI.GenerateContentResponse)
  : M World unit :=
  result <- liftBrowser (GeminiService.analyzeContent_resume answer) ;;
  handleSubmit_finish result.

(** A whole call during which nothing else is handled: the second part
    follows the first at once. *)
Definition handleSubmit : M World unit :=
  pending <- handleSubmit_begin ;;
  match pending with
  | Some answer => handleSubmit_resume answer
  | None => ret tt
  end.

End Handlers.

(** An event reaches the handler of the latest render. *)
Definition dispatch {A} (handler : AppState -> M World A) : M World A :=
  fun w => handler (app w) w.

(** A submission during which nothing else is handled. *)
Definition submit (env : Env) : M World unit := dispatch (handleSubmit env).

Definition selectHistoryItem (item : HistoryItem.t) : M World unit :=
  dispatch (fun _ => loadHistoryItem item).

End App.

(* ===================================================================== *)
(** * The session: events handled one at a time                           *)
(* ===================================================================== *)

Module Session.

(** A call of [handleSubmit] suspended at its [await]: the state
    variables of the render that created it, and the answer it waits for. *)
Record Pending : Type := {
  closure : App.AppState;
  answer : Completion GenAI.GenerateContentResponse
}.

(** The component, the browser, and the suspended calls, oldest first. *)
Record State : Type := {
  world : App.World;
  pending : list Pending
}.

(** What can happen: the form is submitted, the answer awaited by the
    [n]-th suspended call arrives, "Clear All" is pressed, an item of the
    history is picked, the text is edited, a mode is selected. *)
Inductive Event : Type :=
| Submit
| AnswerArrives (n : nat)
| ClearAll
| PickItem (item : HistoryItem.t)
| EditText (text : string)
| SelectMode (mode : AppMode).

(** A handler that completes, run on the world of the session. *)
Definition handle (m : M App.World unit) (s : State) : State :=
  {| world := exec m (world s); pending := pending s |}.

(** Every handler is the one of the latest render. *)
Definition step (env : Env) (e : Event) (s : State) : State :=
  match e with
  | Submit =>
      match App.handleSubmit_begin env (App.app (world s)) (world s) with
      | (Normal (Some awaited), w') =>
          {| world := w';
             pending := pending s ++ [ {| closure := App.app (world s); answer := awaited |} ] |}
      | (_, w') => {| world := w'; pending := pending s |}
      end
  | AnswerArrives n =>
      match pending s !! n with
      | Some p =>
          {| world := exec (App.handleSubmit_resume env (closure p) (answer p)) (world s);
             pending := delete n (pending s) |}
      | None => s
      end
  | ClearAll => handle (App.clearHistory env) s
  | PickItem item => handle (App.loadHistoryItem item) s
  | EditText text => handle (App.setInputText text) s
  | SelectMode mode => handle (App.setSelectedMode mode) s
  end.

Definition run (env : Env) (events : list Event) (s : State) : State :=
  fold_left (fun s e => step env e s) events s.

(** A session with no call suspended. *)
Definition idle (w : App.World) : State := {| world := w; pending := [] |}.

End Session.

(* ===================================================================== *)
(** * components/OutputDisplay.tsx: the response renderer                 *)
(* ===================================================================== *)

Module OutputDisplay.

Import JsString.

(** What [renderContent] returns: React elements, with their tag, [key],
    [className], [aria-hidden] and children; a string child is a text. *)
#[warnings="-register-all"]
Inductive Node : Type :=
| NText (s : string)
| NElement (tag : string) (key : nat) (className : option string)
    (ariaHidden : bool) (children : list Node).

(** [line.replace(/^[\*\-]\s+/, '')]: a leading star or hyphen followed
    by at least one white space is removed together with all the white
    space that follows it. *)
Definition replaceBulletMarker (line : string) : string :=
  match line with
  | String c (String w rest) =>
      if (Ascii.eqb c "*" || Ascii.eqb c "-") && isWhiteSpace w
      then trimStart rest
      else line
  | _ => line
  end.

Definition boldRun (i : nat) (part : string) : Node :=
  if Nat.eqb (i mod 2) 1
  then NElement "strong" i None false [NText part]
  else NText part.

Definition renderLine (line : string) (index : nat) : Node :=
  (* Headings *)
  if startsWith "## " line then
    NElement "h3" index (Some "text-xl font-bold text-slate-900 mt-6 mb-3") false
      [NText (replace "## " EmptyString line)]
  else if startsWith "# " line then
    NElement "h2" index (Some "text-2xl font-bold text-slate-900 mt-6 mb-4") false
      [NText (replace "# " EmptyString line)]
  (* Bullet points *)
  else if startsWith "* " (trim line) || startsWith "- " (trim line) then
    NElement "li" index (Some "ml-4 mb-2 text-slate-800 list-disc") false
      [NText (replaceBulletMarker line)]
  (* Bold text (simple implementation) *)
  else if includes "**" line then
    let parts := split "**" line in
    NElement "p" index (Some "mb-3 text-slate-800 leading-relaxed") false
      (imap boldRun parts)
  (* Empty lines *)
  else if String.eqb (trim line) EmptyString then
    NElement "div" index (Some "h-2") true []
  (* Standard paragraph *)
  else
    NElement "p" index (Some "mb-3 text-slate-800 leading-relaxed") false [NText line].

Definition renderContent (text : string) : list Node :=
  let lines := split LF text in
  imap (fun index line => renderLine line index) lines.

End OutputDisplay.

(* ===================================================================== *)
(** * App.tsx: file selection                                             *)
(* ===================================================================== *)

Module FileInput.

Import JsString.

(** A file picked by the user: its MIME type, and what
    [reader.readAsDataURL(file)] leaves in [reader.result] when the read
    ends ([null] when it fails). *)
Record File : Type := {
  type : string;
  dataURL : option string
}.

(** The [onloadend] handler that [handleFileChange] installs. *)
Definition reader_onloadend (file : File) : M App.World unit :=
  App.setSelectedImage (dataURL file) ;;
  App.setImageMimeType (Some (type file)).

(** [handleFileChange], up to [reader.readAsDataURL(file)]: the result is
    the file whose read was started, if any.  [file] is
    [event.target.files?.[0]]. *)
Definition handleFileChange (file : option File) : M App.World (option File) :=
  match file with
  | Some file =>
      if negb (startsWith "image/" (type file)) then
        App.setError (Some "Please select a valid image file.") ;;
        ret None
      else
        App.setError None ;;
        ret (Some file)
  | None => ret None
  end.

(** The change event followed by the end of the read it started. *)
Definition selectFile (file : option File) : M App.World unit :=
  reading <- handleFileChange file ;;
  match reading with
  | Some file => reader_onloadend file
  | None => ret tt
  end.

(** [handleClearImage]; the reset of the file input element touches
    nothing that is modelled here. *)
Definition handleClearImage : M App.World unit :=
  App.setSelectedImage None ;;
  App.setImageMimeType None.

End FileInput.

(* ===================================================================== *)
(** * App.tsx: voice dictation                                            *)
(* ===================================================================== *)

Module VoiceInput.

Import JsString.

(** The recognition object that [toggleVoiceInput] configures; [active]
    tells whether it was started and not stopped since. *)
Record SpeechRecognition : Type := {
  continuous : bool;
  interimResults : bool;
  lang : string;
  active : bool
}.

(** [event.results[i]]: its [isFinal] flag and the transcript of its
    first alternative, [event.results[i][0].transcript]. *)
Record SpeechRecognitionResult : Type := {
  isFinal : bool;
  transcript : string
}.

Record SpeechRecognitionEvent : Type := {
  resultIndex : nat;
  results : list SpeechRecognitionResult
}.

(** The component state together with [recognitionRef.current] and the
    error codes written with [console.error] by [onerror]. *)
Record VoiceWorld : Type := {
  world : App.World;
  recognitionRef : option SpeechRecognition;
  speechErrors : list (string * string)
}.

Definition liftApp {A} (m : M App.World A) : M VoiceWorld A :=
  fun v =>
    let (r, w') := m (world v) in
    (r, {| world := w'; recognitionRef := recognitionRef v; speechErrors := speechErrors v |}).

Definition setRecognitionRef (r : option SpeechRecognition) : M VoiceWorld unit :=
  modify (fun v =>
    {| world := world v; recognitionRef := r; speechErrors := speechErrors v |}).

Definition logSpeechError (label code : string) : M VoiceWorld unit :=
  modify (fun v =>
    {| world := world v; recognitionRef := recognitionRef v;
       speechErrors := speechErrors v ++ [(label, code)] |}).

(** [recognition.stop()] and [recognition.start()]. *)
Definition stop (r : SpeechRecognition) : SpeechRecognition :=
  {| continuous := continuous r; interimResults := interimResults r;
     lang := lang r; active := false |}.

Definition start (r : SpeechRecognition) : SpeechRecognition :=
  {| continuous := continuous r; interimResults := interimResults r;
     lang := lang r; active := true |}.

Definition setIsListening (v : bool) : M App.World unit :=
  App.setApp (fun s =>
    {| App.selectedMode := App.selectedMode s; App.inputText := App.inputText s;
       App.selectedImage := App.selectedImage s; App.imageMimeType := App.imageMimeType s;
       App.isAnalyzing := App.isAnalyzing s; App.responseContent := App.responseContent s;
       App.error := App.error s; App.history := App.history s;
       App.showHistory := App.showHistory s; App.isListening := v |}).

(** [setInputText(prev => f(prev))]: the update is computed from the
    current text, not from the text of a render. *)
Definition updateInputText (f : string -> string) : M App.World unit :=
  App.setApp (fun s =>
    {| App.selectedMode := App.selectedMode s; App.inputText := f (App.inputText s);
       App.selectedImage := App.selectedImage s; App.imageMimeType := App.imageMimeType s;
       App.isAnalyzing := App.isAnalyzing s; App.responseContent := App.responseContent s;
       App.error := App.error s; App.history := App.history s;
       App.showHistory := App.showHistory s; App.isListening := App.isListening s |}).

(** [/\s$/.test(s)]: the last code unit of [s] is a white space. *)
Fixpoint endsWithWhiteSpace (s : string) : bool :=
  match s with
  | EmptyString => false
  | String c EmptyString => isWhiteSpace c
  | String _ s' => endsWithWhiteSpace s'
  end.

(** The loop of [onresult]: the transcripts of the final results, from
    [event.resultIndex] on, are appended to [newTranscript]. *)
Definition newTranscript (event : SpeechRecognitionEvent) : string :=
  fold_left
    (fun acc result => if isFinal result then acc +:+ transcript result else acc)
    (skipn (resultIndex event) (results event))
    EmptyString.

(** The updater that [onresult] passes to [setInputText]. *)
Definition appendTranscript (newTranscript prev : string) : string :=
  let spacer := if truthy prev && negb (endsWithWhiteSpace prev) then " " else EmptyString in
  prev +:+ spacer +:+ newTranscript.

(** The handlers installed on the recognition object. *)
Definition onstart : M VoiceWorld unit :=
  liftApp (setIsListening true ;; App.setError None).

Definition onresult (event : SpeechRecognitionEvent) : M VoiceWorld unit :=
  if truthy (newTranscript event)
  then liftApp (updateInputText (appendTranscript (newTranscript event)))
  else ret tt.

(** [event.error] is the error code. *)
Definition onerror (code : string) : M VoiceWorld unit :=
  logSpeechError "Speech recognition error" code ;;
  liftApp (setIsListening false) ;;
  if String.eqb code "not-allowed" then
    liftApp (App.setError
      (Some "Microphone access was denied. Please allow microphone access to use voice input."))
  else if String.eqb code "no-speech" then
    ret tt
  else
    liftApp (App.setError (Some ("Voice input error: " +:+ code))).

Definition onend : M VoiceWorld unit :=
  liftApp (setIsListening false).

Section Handlers.

(** Whether the browser offers [SpeechRecognition] or
    [webkitSpeechRecognition]. *)
Variable supported : bool.

(** The state variables of the render that created the handler. *)
Variable render : App.AppState.

Definition toggleVoiceInput : M VoiceWorld unit :=
  if App.isListening render then
    current <- (fun v => (Normal (recognitionRef v), v)) ;;
    match current with
    | Some r => setRecognitionRef (Some (stop r))
    | None => ret tt
    end ;;
    liftApp (setIsListening false)
  else if negb supported then
    liftApp (App.setError
      (Some "Voice input is not supported in this browser. Please use Chrome, Edge, or Safari."))
  else
    let recognition :=
      {| continuous := true; interimResults := false; lang := "en-US"; active := false |} in
    setRecognitionRef (Some recognition) ;;
    setRecognitionRef (Some (start recognition)).

End Handlers.

(** The cleanup run when the component unmounts. *)
Definition unmount : M VoiceWorld unit :=
  current <- (fun v => (Normal (recognitionRef v), v)) ;;
  match current with
  | Some r => setRecognitionRef (Some (stop r))
  | None => ret tt
  end.

(** An event reaches the handler of the latest render. *)
Definition dispatch {A} (handler : App.AppState -> M VoiceWorld A) : M VoiceWorld A :=
  fun v => handler (App.app (world v)) v.

End VoiceInput.

(* ===================================================================== *)
(** * components/OutputDisplay.tsx: read-aloud and feedback               *)
(* ===================================================================== *)

Module ReadAloud.

Import JsString.

Inductive Feedback : Type := up | down.

(** The state variables of [OutputDisplay]. *)
Record DisplayState : Type := {
  isSpeaking : bool;
  feedback : option Feedback
}.

(** The component state and the utterances that [window.speechSynthesis]
    holds, spoken or waiting, in the order in which they were given. *)
Record DisplayWorld : Type := {
  display : DisplayState;
  utterances : list string
}.

Definition setIsSpeaking (v : bool) : M DisplayWorld unit :=
  modify (fun w =>
    {| display := {| isSpeaking := v; feedback := feedback (display w) |};
       utterances := utterances w |}).

Definition setFeedback (v : option Feedback) : M DisplayWorld unit :=
  modify (fun w =>
    {| display := {| isSpeaking := isSpeaking (display w); feedback := v |};
       utterances := utterances w |}).

(** [window.speechSynthesis.cancel()] removes every utterance;
    [window.speechSynthesis.speak(u)] adds one at the end. *)
Definition speechSynthesis_cancel : M DisplayWorld unit :=
  modify (fun w => {| display := display w; utterances := [] |}).

Definition speechSynthesis_speak (text : string) : M DisplayWorld unit :=
  modify (fun w => {| display := display w; utterances := utterances w ++ [text] |}).

(** The component renders nothing when this is [false]. *)
Definition rendered (content : string) (isLoading : bool) : bool :=
  negb (negb (truthy content) && negb isLoading).

Section Handlers.

Variable content : string.
Variable render : DisplayState.

Definition handleSpeak : M DisplayWorld unit :=
  if isSpeaking render then
    speechSynthesis_cancel ;;
    setIsSpeaking false
  else
    setIsSpeaking true ;;
    speechSynthesis_speak content.

(** The two feedback buttons. *)
Definition thumbsUp : M DisplayWorld unit :=
  setFeedback (match feedback render with Some up => None | _ => Some up end).

Definition thumbsDown : M DisplayWorld unit :=
  setFeedback (match feedback render with Some down => None | _ => Some down end).

End Handlers.

(** [utterance.onend] and [utterance.onerror]. *)
Definition utterance_onend : M DisplayWorld unit := setIsSpeaking false.

(** The effect that runs when [isLoading] changes. *)
Definition loadingEffect (isLoading : bool) : M DisplayWorld unit :=
  if isLoading then
    speechSynthesis_cancel ;;
    setIsSpeaking false ;;
    setFeedback None
  else ret tt.

(** The cleanup run when the component unmounts. *)
Definition unmount : M DisplayWorld unit := speechSynthesis_cancel.

Definition dispatch {A} (handler : DisplayState -> M DisplayWorld A) : M DisplayWorld A :=
  fun w => handler (display w) w.

End ReadAloud.

(* ===================================================================== *)
(** * Vocabulary of the statements                                        *)
(* ===================================================================== *)

Import JsString.

(** The two shapes of a response. *)
Definition failure (msg : string) : AnalysisResponse.t :=
  {| AnalysisResponse.markdown := EmptyString; AnalysisResponse.error := Some msg |}.

Definition success (text : string) : AnalysisResponse.t :=
  {| AnalysisResponse.markdown := text; AnalysisResponse.error := None |}.

(** The browser state after a request was sent, and after an error was
    written on the console. *)
Definition sent (params : GenAI.GenerateContentParameters) (b : Browser) : Browser :=
  {| localStorage := localStorage b; console := console b;
     network := network b ++ [params]; clockReads := clockReads b |}.

Definition logged (label : string) (e : JsError) (b : Browser) : Browser :=
  {| localStorage := localStorage b; console := console b ++ [(label, e)];
     network := network b; clockReads := clockReads b |}.

Definition unexpectedError : string :=
  "An unexpected error occurred while processing your request.".

(** What the endpoint answers to [request] in the browser state [b]. *)
Definition answer (env : Env) (apiKey : string) (request : AnalysisRequest.t) (b : Browser)
  : Completion GenAI.GenerateContentResponse :=
  generateContent env (network b) apiKey (GeminiService.requestParameters request).

(** The fixed task instruction of each mode, as the sources spell it. *)
Definition taskInstruction (mode : AppMode) : string :=
  match mode with
  | DESCRIBE => "Task: Perform a 'Describe' analysis. Focus on layout, sections, and accessibility relevant details."
  | SIMPLIFY => "Task: Perform a 'Simplify' analysis. Extract text and rewrite it in plain, simple language with bullet points."
  | GUIDE => "Task: Perform a 'Guide' analysis. Provide step-by-step instructions on how to interact with this content."
  end.

Definition isText (p : GenAI.Part) : bool :=
  match p with
  | GenAI.Text _ => true
  | GenAI.InlineData _ _ => false
  end.

(** A request stripped of its image fields. *)
Definition withoutImage (request : AnalysisRequest.t) : AnalysisRequest.t :=
  {| AnalysisRequest.text := AnalysisRequest.text request;
     AnalysisRequest.imageBase64 := None;
     AnalysisRequest.imageMimeType := None;
     AnalysisRequest.mode := AnalysisRequest.mode request |}.

(** The messages of [analyzeContent]. *)
Definition missingKey : string := "API Key not found in environment variables".
Definition noResponse : string := "No response generated from the model.".
Definition apiErrorLabel : string := "Gemini API Error:".

(** A response is a failure when its markdown is empty and it carries a
    non-empty error message; a success when its markdown is not empty and
    it carries no error. *)
Definition isFailure (r : AnalysisResponse.t) : Prop :=
  AnalysisResponse.markdown r = EmptyString /\
  exists msg, AnalysisResponse.error r = Some msg /\ msg <> EmptyString.

Definition isSuccess (r : AnalysisResponse.t) : Prop :=
  AnalysisResponse.markdown r <> EmptyString /\ AnalysisResponse.error r = None.

(** The composed content in the words of the specification: the inline
    image segment when an image is present, then one text segment made of
    the quoted echo of the text (or the fallback sentence) and the task
    instruction of the mode. *)
Definition stripDataUrlPrefix (payload : string) : string :=
  or_else (split "," payload !! 1) payload.

Definition imageSegment (request : AnalysisRequest.t) : list GenAI.Part :=
  match AnalysisRequest.imageBase64 request, AnalysisRequest.imageMimeType request with
  | Some payload, Some mime =>
      if truthy payload && truthy mime
      then [GenAI.InlineData mime (stripDataUrlPrefix payload)]
      else []
  | _, _ => []
  end.

Definition quotedEcho (text : string) : string :=
  "User Input: " +:+ dquote +:+ text +:+ dquote +:+ LF +:+ LF.

Definition fallbackIntro : string := "Analyze the provided image." +:+ LF +:+ LF.

Definition promptIntro (text : string) : string :=
  if truthy text then quotedEcho text else fallbackIntro.

Definition textSegment (request : AnalysisRequest.t) : GenAI.Part :=
  GenAI.Text (promptIntro (AnalysisRequest.text request)
              +:+ taskInstruction (AnalysisRequest.mode request)).

(** The item that [addToHistory] creates in the browser state [b], for
    the handler of the render [render]: its id and its timestamp are the
    next two readings of the clock. *)
Definition newHistoryItem (env : Env) (render : App.AppState) (text response : string)
    (b : Browser) : HistoryItem.t :=
  {| HistoryItem.id := pretty (Date_now env (clockReads b));
     HistoryItem.timestamp := Date_now env (S (clockReads b));
     HistoryItem.mode := App.selectedMode render;
     HistoryItem.inputText := text;
     HistoryItem.response := response;
     HistoryItem.hasImage := truthy_opt (App.selectedImage render) |}.

Definition saveFailedLabel : string := "Failed to save history - likely quota exceeded".

Definition emptySubmission : string := "Please provide either text or an image to analyze.".

(** The browser state after [addToHistory] has read the clock twice and
    tried to write [updated] to the storage. *)
Definition persisted (env : Env) (updated : list HistoryItem.t) (b : Browser) : Browser :=
  match setItem_fails env (localStorage b) App.storageKey (JSON.stringify updated) with
  | Some e =>
      {| localStorage := localStorage b;
         console := console b ++ [(saveFailedLabel, e)];
         network := network b;
         clockReads := S (S (clockReads b)) |}
  | None =>
      {| localStorage := <[App.storageKey := JSON.stringify updated]> (localStorage b);
         console := console b;
         network := network b;
         clockReads := S (S (clockReads b)) |}
  end.

(** An occurrence of [sep] starts inside [a] when [a] is followed by [t]. *)
Fixpoint occursWithin (sep a t : string) : bool :=
  match a with
  | EmptyString => false
  | String _ a' => startsWith sep (a +:+ t) || occursWithin sep a' t
  end.

(** The elements that [renderLine] builds. *)
Definition paragraphClass : string := "mb-3 text-slate-800 leading-relaxed".

Definition subHeading (key : nat) (text : string) : OutputDisplay.Node :=
  OutputDisplay.NElement "h3" key (Some "text-xl font-bold text-slate-900 mt-6 mb-3") false
    [OutputDisplay.NText text].

Definition spacer (key : nat) : OutputDisplay.Node :=
  OutputDisplay.NElement "div" key (Some "h-2") true [].

Definition bulletItem (key : nat) (text : string) : OutputDisplay.Node :=
  OutputDisplay.NElement "li" key (Some "ml-4 mb-2 text-slate-800 list-disc") false
    [OutputDisplay.NText text].

Definition paragraph (key : nat) (runs : list OutputDisplay.Node) : OutputDisplay.Node :=
  OutputDisplay.NElement "p" key (Some paragraphClass) false runs.

Definition plain (text : string) : OutputDisplay.Node := OutputDisplay.NText text.

Definition bold (key : nat) (text : string) : OutputDisplay.Node :=
  OutputDisplay.NElement "strong" key None false [OutputDisplay.NText text].

(** Sample collaborators and states. *)
Module Samples.

Definition endpointSays (text : option string)
  : list GenAI.GenerateContentParameters -> string -> GenAI.GenerateContentParameters ->
    Completion GenAI.GenerateContentResponse :=
  fun _ _ _ => Normal {| GenAI.text := text |}.

Definition endpointDown (e : JsError)
  : list GenAI.GenerateContentParameters -> string -> GenAI.GenerateContentParameters ->
    Completion GenAI.GenerateContentResponse :=
  fun _ _ _ => Throw e.

Definition clock (n : nat) : Z := (1730000000000 + Z.of_nat n)%Z.

Definition quotaExceeded : JsError := Error "The quota has been exceeded.".

Definition envWith (key : option string)
    (endpoint : list GenAI.GenerateContentParameters -> string ->
                GenAI.GenerateContentParameters -> Completion GenAI.GenerateContentResponse)
    (storageFull : bool) : Env :=
  {| API_KEY := key;
     generateContent := endpoint;
     Date_now := clock;
     setItem_fails := fun _ _ _ => if storageFull then Some quotaExceeded else None;
     window_confirm := fun _ => true |}.

Definition envOk : Env := envWith (Some "key") (endpointSays (Some "## Result")) false.
Definition envNoKey : Env := envWith None (endpointSays (Some "## Result")) false.
Definition envEmptyAnswer : Env := envWith (Some "key") (endpointSays (Some EmptyString)) false.
Definition envDown : Env := envWith (Some "key") (endpointDown (Error "503 Service Unavailable")) false.
Definition envStorageFull : Env := envWith (Some "key") (endpointSays (Some "## Result")) true.

Definition browser0 : Browser :=
  {| localStorage := ∅; console := []; network := []; clockReads := 0 |}.

Definition textRequest : AnalysisRequest.t :=
  {| AnalysisRequest.text := "What is on this page?";
     AnalysisRequest.imageBase64 := None;
     AnalysisRequest.imageMimeType := None;
     AnalysisRequest.mode := SIMPLIFY |}.

Definition imageRequest : AnalysisRequest.t :=
  {| AnalysisRequest.text := EmptyString;
     AnalysisRequest.imageBase64 := Some "data:image/png;base64,iVBORw0KGgo=";
     AnalysisRequest.imageMimeType := Some "image/png";
     AnalysisRequest.mode := DESCRIBE |}.

(** An image payload without its MIME type. *)
Definition partialRequest : AnalysisRequest.t :=
  {| AnalysisRequest.text := "Read this";
     AnalysisRequest.imageBase64 := Some "data:image/png;base64,iVBORw0KGgo=";
     AnalysisRequest.imageMimeType := None;
     AnalysisRequest.mode := GUIDE |}.

Definition world0 : App.World := {| App.app := App.initialState; App.browser := browser0 |}.

(** The user has typed a question. *)
Definition worldWithText : App.World :=
  exec (App.setInputText "What is on this page?") world0.

(** The user has selected an image and typed nothing. *)
Definition worldWithImage : App.World :=
  exec (App.setSelectedImage (Some "data:image/png;base64,iVBORw0KGgo=") ;;
        App.setImageMimeType (Some "image/png")) world0.

(** A past interaction that had no image. *)
Definition pastItem : HistoryItem.t :=
  {| HistoryItem.id := "1729999999000";
     HistoryItem.timestamp := 1729999999000;
     HistoryItem.mode := GUIDE;
     HistoryItem.inputText := "How do I log in?";
     HistoryItem.response := "## Steps";
     HistoryItem.hasImage := false |}.

End Samples.

(** More vocabulary: the main heading, strings made of white space only,
    [Array.prototype.join], the number of occurrences of a code unit, and
    the key of an element. *)
Definition heading (key : nat) (text : string) : OutputDisplay.Node :=
  OutputDisplay.NElement "h2" key (Some "text-2xl font-bold text-slate-900 mt-6 mb-4") false
    [OutputDisplay.NText text].

Fixpoint allWhiteSpace (s : string) : bool :=
  match s with
  | EmptyString => true
  | String c s' => isWhiteSpace c && allWhiteSpace s'
  end.

Fixpoint join (sep : string) (l : list string) : string :=
  match l with
  | [] => EmptyString
  | [x] => x
  | x :: l' => x +:+ sep +:+ join sep l'
  end.

Fixpoint countUnit (c : ascii) (s : string) : nat :=
  match s with
  | EmptyString => 0
  | String d s' => (if Ascii.eqb c d then 1 else 0) + countUnit c s'
  end.

Definition nodeKey (n : OutputDisplay.Node) : option nat :=
  match n with
  | OutputDisplay.NText _ => None
  | OutputDisplay.NElement _ key _ _ _ => Some key
  end.

(** The text of a run of a paragraph. *)
Definition runText (n : OutputDisplay.Node) : string :=
  match n with
  | OutputDisplay.NText s => s
  | OutputDisplay.NElement _ _ _ _ [OutputDisplay.NText s] => s
  | OutputDisplay.NElement _ _ _ _ _ => EmptyString
  end.

(** The submission passes the guard of [handleSubmit]. *)
Definition accepted (render : App.AppState) : bool :=
  truthy (App.inputText render) || truthy_opt (App.selectedImage render).

(** The component state after an analysis that failed with [msg]. *)
Definition failedState (msg : string) (s : App.AppState) : App.AppState :=
  {| App.selectedMode := App.selectedMode s; App.inputText := App.inputText s;
     App.selectedImage := App.selectedImage s; App.imageMimeType := App.imageMimeType s;
     App.isAnalyzing := false; App.responseContent := EmptyString;
     App.error := Some msg; App.history := App.history s;
     App.showHistory := App.showHistory s; App.isListening := App.isListening s |}.

(** The component state after an analysis that answered [markdown]. *)
Definition succeededState (markdown : string) (history : list HistoryItem.t)
    (s : App.AppState) : App.AppState :=
  {| App.selectedMode := App.selectedMode s; App.inputText := App.inputText s;
     App.selectedImage := App.selectedImage s; App.imageMimeType := App.imageMimeType s;
     App.isAnalyzing := false; App.responseContent := markdown;
     App.error := None; App.history := history;
     App.showHistory := App.showHistory s; App.isListening := App.isListening s |}.

Definition confirmClear : string := "Are you sure you want to clear your history?".

(** The recognition object that [toggleVoiceInput] makes. *)
Definition englishRecognition (active : bool) : VoiceInput.SpeechRecognition :=
  {| VoiceInput.continuous := true; VoiceInput.interimResults := false;
     VoiceInput.lang := "en-US"; VoiceInput.active := active |}.

Definition invalidFile : string := "Please select a valid image file.".

Definition voiceUnsupported : string :=
  "Voice input is not supported in this browser. Please use Chrome, Edge, or Safari.".

(** More sample values. *)
Module Scenarios.

Definition pngFile : FileInput.File :=
  {| FileInput.type := "image/png";
     FileInput.dataURL := Some "data:image/png;base64,iVBORw0KGgo=" |}.

Definition pdfFile : FileInput.File :=
  {| FileInput.type := "application/pdf";
     FileInput.dataURL := Some "data:application/pdf;base64,JVBERi0=" |}.

(** An image whose read fails. *)
Definition unreadableFile : FileInput.File :=
  {| FileInput.type := "image/jpeg"; FileInput.dataURL := None |}.

(** A past interaction made with an image and no text. *)
Definition imageOnlyItem : HistoryItem.t :=
  {| HistoryItem.id := "1729999999000";
     HistoryItem.timestamp := 1729999999000;
     HistoryItem.mode := DESCRIBE;
     HistoryItem.inputText := EmptyString;
     HistoryItem.response := "## Layout";
     HistoryItem.hasImage := true |}.

(** A past interaction made with an image and a question. *)
Definition imageAndTextItem : HistoryItem.t :=
  {| HistoryItem.id := "1729999999500";
     HistoryItem.timestamp := 1729999999500;
     HistoryItem.mode := GUIDE;
     HistoryItem.inputText := "How do I pay?";
     HistoryItem.response := "## Steps";
     HistoryItem.hasImage := true |}.

(** A state with two past interactions, saved in the storage. *)
Definition worldWithHistory : App.World :=
  {| App.app :=
       {| App.selectedMode := DESCRIBE; App.inputText := "What is on this page?";
          App.selectedImage := None; App.imageMimeType := None;
          App.isAnalyzing := false; App.responseContent := EmptyString;
          App.error := None; App.history := [imageAndTextItem; Samples.pastItem];
          App.showHistory := true; App.isListening := false |};
     App.browser :=
       {| localStorage :=
            {[ App.storageKey := JSON.stringify [imageAndTextItem; Samples.pastItem];
               "theme" := "dark" ]};
          console := []; network := []; clockReads := 0 |} |}.

Definition voiceWorld (w : App.World) : VoiceInput.VoiceWorld :=
  {| VoiceInput.world := w; VoiceInput.recognitionRef := None;
     VoiceInput.speechErrors := [] |}.

(** Two results, the first already delivered, the second final. *)
Definition dictation : VoiceInput.SpeechRecognitionEvent :=
  {| VoiceInput.resultIndex := 1;
     VoiceInput.results :=
       [ {| VoiceInput.isFinal := true; VoiceInput.transcript := "What is" |};
         {| VoiceInput.isFinal := true; VoiceInput.transcript := "in the second column" |} ] |}.

(** Only an interim result. *)
Definition interimDictation : VoiceInput.SpeechRecognitionEvent :=
  {| VoiceInput.resultIndex := 0;
     VoiceInput.results :=
       [ {| VoiceInput.isFinal := false; VoiceInput.transcript := "in the sec" |} ] |}.

Definition silentDisplay : ReadAloud.DisplayWorld :=
  {| ReadAloud.display := {| ReadAloud.isSpeaking := false; ReadAloud.feedback := None |};
     ReadAloud.utterances := [] |}.

End Scenarios.

(** The component state after a suspended [handleSubmit] has resumed:
    with the answer [markdown] and the history it wrote, and with the
    error [msg]. *)
Definition resumedWithAnswer (markdown : string) (history : list HistoryItem.t)
    (s : App.AppState) : App.AppState :=
  {| App.selectedMode := App.selectedMode s; App.inputText := App.inputText s;
     App.selectedImage := App.selectedImage s; App.imageMimeType := App.imageMimeType s;
     App.isAnalyzing := false; App.responseContent := markdown;
     App.error := App.error s; App.history := history;
     App.showHistory := App.showHistory s; App.isListening := App.isListening s |}.

Definition resumedWithError (msg : string) (s : App.AppState) : App.AppState :=
  {| App.selectedMode := App.selectedMode s; App.inputText := App.inputText s;
     App.selectedImage := App.selectedImage s; App.imageMimeType := App.imageMimeType s;
     App.isAnalyzing := false; App.responseContent := App.responseContent s;
     App.error := Some msg; App.history := App.history s;
     App.showHistory := App.showHistory s; App.isListening := App.isListening s |}.

(** The response that the second part of [analyzeContent] makes of an
    answer. *)
Definition responseTo (answer : Completion GenAI.GenerateContentResponse)
  : AnalysisResponse.t :=
  match answer with
  | Normal r =>
      match GenAI.text r with
      | Some text => if truthy text then success text else failure noResponse
      | None => failure noResponse
      end
  | Throw e => failure (or_else (message e) unexpectedError)
  end.

(** A session in which two interactions were saved and a question is
    typed, and the item that the next successful analysis creates. *)
Module Overlap.

Definition start : Session.State := Session.idle Scenarios.worldWithHistory.

Definition newItem : HistoryItem.t :=
  {| HistoryItem.id := "1730000000000";
     HistoryItem.timestamp := 1730000000001;
     HistoryItem.mode := DESCRIBE;
     HistoryItem.inputText := "What is on this page?";
     HistoryItem.response := "## Result";
     HistoryItem.hasImage := false |}.

End Overlap.

(* ===================================================================== *)
(** * Facts about strings                                                 *)
(* ===================================================================== *)

Section StringFacts.

Lemma truthy_true_iff (s : string) : truthy s = true <-> s <> EmptyString.
Proof. destruct s; simpl; split; intros; congruence. Qed.

Lemma truthy_false_iff (s : string) : truthy s = false <-> s = EmptyString.
Proof. destruct s; simpl; split; intros; congruence. Qed.

Lemma truthy_opt_false_iff (o : option string) :
  truthy_opt o = false <-> o = None \/ o = Some EmptyString.
Proof.
  destruct o as [s|]; simpl.
  - rewrite truthy_false_iff. split.
    + intros ->. now right.
    + intros [H|H]; congruence.
  - split; auto.
Qed.

Lemma or_else_truthy (a : option string) (b : string) :
  truthy b = true -> truthy (or_else a b) = true.
Proof.
  intros Hb. destruct a as [s|]; simpl; [|exact Hb].
  destruct (truthy s) eqn:Hs; [exact Hs | exact Hb].
Qed.

Lemma or_else_verbatim (m b : string) :
  m <> EmptyString -> or_else (Some m) b = m.
Proof. intros Hm. apply truthy_true_iff in Hm. simpl. now rewrite Hm. Qed.

Lemma append_cons (c : ascii) (s t : string) : String c s +:+ t = String c (s +:+ t).
Proof. reflexivity. Qed.

Lemma append_empty_l (s : string) : EmptyString +:+ s = s.
Proof. reflexivity. Qed.

Lemma append_empty_r (s : string) : s +:+ EmptyString = s.
Proof.
  induction s as [|c s IH]; [reflexivity|].
  rewrite append_cons. now rewrite IH.
Qed.

Lemma append_assoc (s t u : string) : (s +:+ t) +:+ u = s +:+ (t +:+ u).
Proof.
  induction s as [|c s IH]; [reflexivity|].
  rewrite !append_cons. now rewrite IH.
Qed.

End StringFacts.

(* ===================================================================== *)
(** * Facts about [analyzeContent]                                        *)
(* ===================================================================== *)

Section AnalyzeContentFacts.

Variable env : Env.

Local Abbreviation analyzeContent := (GeminiService.analyzeContent env).

(** Without a credential the analysis fails before anything is sent. *)
Lemma analyzeContent_missing_key (request : AnalysisRequest.t) (b : Browser) :
  truthy_opt (API_KEY env) = false ->
  analyzeContent request b =
    (Normal (failure missingKey), logged apiErrorLabel (Error missingKey) b).
Proof.
  intros Hkey.
  unfold GeminiService.analyzeContent, GeminiService.getClient, try_catch, bind.
  destruct (API_KEY env) as [k|]; simpl in Hkey; [rewrite Hkey|]; reflexivity.
Qed.

(** With a credential the request is sent, and the response follows the
    answer of the endpoint. *)
Lemma analyzeContent_with_key (request : AnalysisRequest.t) (b : Browser) (apiKey : string) :
  API_KEY env = Some apiKey -> truthy apiKey = true ->
  analyzeContent request b =
    let b1 := sent (GeminiService.requestParameters request) b in
    match answer env apiKey request b with
    | Normal r =>
        match GenAI.text r with
        | Some text =>
            if truthy text then (Normal (success text), b1)
            else (Normal (failure noResponse), logged apiErrorLabel (Error noResponse) b1)
        | None => (Normal (failure noResponse), logged apiErrorLabel (Error noResponse) b1)
        end
    | Throw e =>
        (Normal (failure (or_else (message e) unexpectedError)), logged apiErrorLabel e b1)
    end.
Proof.
  intros Hkey Htruthy.
  unfold GeminiService.analyzeContent, GeminiService.getClient, try_catch, bind,
    models_generateContent, answer.
  rewrite Hkey, Htruthy. cbn.
  destruct (generateContent env (network b) apiKey (GeminiService.requestParameters request))
    as [r|e]; [|reflexivity].
  destruct (GenAI.text r) as [text|]; [|reflexivity].
  destruct (truthy text); reflexivity.
Qed.

(** A call is its first part, followed when it waits by its second part. *)
Lemma analyzeContent_phases (request : AnalysisRequest.t) (b : Browser) :
  analyzeContent request b =
    match GeminiService.analyzeContent_start env request b with
    | (Normal (GeminiService.Finished response), b1) => (Normal response, b1)
    | (Normal (GeminiService.Awaiting answer), b1) =>
        GeminiService.analyzeContent_resume answer b1
    | (Throw e, b1) => (Throw e, b1)
    end.
Proof.
  unfold GeminiService.analyzeContent, GeminiService.analyzeContent_start,
    GeminiService.analyzeContent_resume, GeminiService.getClient,
    GeminiService.sendRequest, GeminiService.awaited, GeminiService.catchBlock,
    models_generateContent, try_catch, bind, ret, throw.
  destruct (API_KEY env) as [apiKey|]; [|reflexivity].
  destruct (truthy apiKey); [|reflexivity].
  destruct (generateContent env (network b) apiKey (GeminiService.requestParameters request))
    as [r|e]; reflexivity.
Qed.

(** Every call leaves a trace: a request sent or an error logged. *)
Lemma analyzeContent_leaves_trace (request : AnalysisRequest.t) (b : Browser) :
  exec (analyzeContent request) b <> b.
Proof.
  assert (Hlen : forall b' : Browser,
            length (network b') + length (console b') <> length (network b) + length (console b) ->
            b' <> b) by (intros b' Hne ->; now apply Hne).
  apply Hlen. unfold exec.
  destruct (truthy_opt (API_KEY env)) eqn:Hkey.
  - destruct (API_KEY env) as [k|] eqn:Hk; [|discriminate]. simpl in Hkey.
    rewrite (analyzeContent_with_key request b k Hk Hkey). cbv zeta.
    destruct (answer env k request b) as [r|e];
      [destruct (GenAI.text r) as [text|]; [destruct (truthy text)|]|];
      simpl; rewrite ?length_app; simpl; lia.
  - rewrite (analyzeContent_missing_key request b Hkey).
    simpl. rewrite length_app. simpl. lia.
Qed.

End AnalyzeContentFacts.

(* ===================================================================== *)
(** * The analysis client                                                 *)
(* ===================================================================== *)

Section AnalysisClient.

Variable env : Env.

Local Abbreviation analyzeContent := (GeminiService.analyzeContent env).

Lemma failure_isFailure (msg : string) : msg <> EmptyString -> isFailure (failure msg).
Proof. intros Hmsg. split; [reflexivity|]. exists msg. now split. Qed.

Lemma success_isSuccess (text : string) : truthy text = true -> isSuccess (success text).
Proof. intros Ht. split; [|reflexivity]. now apply truthy_true_iff. Qed.

Lemma isFailure_not_isSuccess (r : AnalysisResponse.t) : isFailure r -> ~ isSuccess r.
Proof. intros [Hm _] [Hn _]. now apply Hn. Qed.

Lemma or_else_unexpected_nonempty (a : option string) :
  or_else a unexpectedError <> EmptyString.
Proof. apply truthy_true_iff, or_else_truthy. reflexivity. Qed.

(** The response of every call is a success or a failure, and which one
    is decided by the credential and the answer of the endpoint. *)
Lemma analyzeContent_outcome (request : AnalysisRequest.t) (b : Browser) :
  exists response b',
    analyzeContent request b = (Normal response, b') /\
    match API_KEY env with
    | Some apiKey =>
        if truthy apiKey then
          match answer env apiKey request b with
          | Normal r =>
              if truthy_opt (GenAI.text r)
              then exists text, GenAI.text r = Some text /\ response = success text
              else response = failure noResponse
          | Throw e => response = failure (or_else (message e) unexpectedError)
          end
        else response = failure missingKey
    | None => response = failure missingKey
    end.
Proof.
  destruct (API_KEY env) as [apiKey|] eqn:Hkey.
  - destruct (truthy apiKey) eqn:Htruthy.
    + rewrite (analyzeContent_with_key env request b apiKey Hkey Htruthy). cbv zeta.
      destruct (answer env apiKey request b) as [r|e].
      * destruct (GenAI.text r) as [text|]; simpl.
        -- destruct (truthy text); eexists _, _; split; try reflexivity.
           exists text. now split.
        -- eexists _, _; split; reflexivity.
      * eexists _, _; split; reflexivity.
    + rewrite analyzeContent_missing_key by (rewrite Hkey; exact Htruthy).
      eexists _, _; split; reflexivity.
  - rewrite analyzeContent_missing_key by (now rewrite Hkey).
    eexists _, _; split; reflexivity.
Qed.

(** C2. [analyzeContent] never throws: for every request the call
    completes normally with a response.  A missing credential, an
    exception of the endpoint and an empty answer are each returned as a
    failure, that is with an empty markdown and a non-empty error message;
    an empty answer gives the message "No response generated from the
    model.", and a non-empty message of an exception is passed verbatim. *)
Theorem analyzeContent_never_throws (request : AnalysisRequest.t) (b : Browser) :
  exists response b',
    analyzeContent request b = (Normal response, b') /\
    (truthy_opt (API_KEY env) = false ->
       response = failure missingKey /\ isFailure response) /\
    (forall apiKey e,
       API_KEY env = Some apiKey -> truthy apiKey = true ->
       answer env apiKey request b = Throw e ->
       response = failure (or_else (message e) unexpectedError) /\ isFailure response /\
       (forall msg, message e = Some msg -> msg <> EmptyString ->
          AnalysisResponse.error response = Some msg)) /\
    (forall apiKey r,
       API_KEY env = Some apiKey -> truthy apiKey = true ->
       answer env apiKey request b = Normal r ->
       truthy_opt (GenAI.text r) = false ->
       response = failure noResponse /\ isFailure response).
Proof.
  destruct (analyzeContent_outcome request b) as (response & b' & Hrun & Hcase).
  exists response, b'. split; [exact Hrun|]. split; [|split].
  - intros Hkey. assert (response = failure missingKey) as ->.
    { destruct (API_KEY env) as [k|]; simpl in Hkey; [rewrite Hkey in Hcase|]; exact Hcase. }
    split; [reflexivity | now apply failure_isFailure].
  - intros apiKey e Hkey Htruthy Hans. rewrite Hkey, Htruthy, Hans in Hcase. subst response.
    split; [reflexivity|]. split; [apply failure_isFailure, or_else_unexpected_nonempty|].
    intros msg Hmsg Hne. simpl. rewrite Hmsg. now rewrite or_else_verbatim.
  - intros apiKey r Hkey Htruthy Hans Htext.
    rewrite Hkey, Htruthy, Hans, Htext in Hcase. subst response.
    split; [reflexivity | now apply failure_isFailure].
Qed.

(** C3. The response of [analyzeContent] has its two fields, [markdown]
    (a string) and [error] (a string or absent), and exactly one of
    "markdown non-empty" and "error present" holds: either the markdown is
    not empty and there is no error, or the markdown is empty and there is
    a non-empty error. *)
Theorem analyzeContent_markdown_xor_error (request : AnalysisRequest.t) (b : Browser) :
  exists response b',
    analyzeContent request b = (Normal response, b') /\
    ((isSuccess response /\ ~ isFailure response) \/
     (isFailure response /\ ~ isSuccess response)) /\
    (AnalysisResponse.markdown response <> EmptyString <->
     AnalysisResponse.error response = None).
Proof.
  destruct (analyzeContent_outcome request b) as (response & b' & Hrun & Hcase).
  exists response, b'. split; [exact Hrun|].
  assert (Hfail : forall msg, msg <> EmptyString -> response = failure msg ->
            ((isSuccess response /\ ~ isFailure response) \/
             (isFailure response /\ ~ isSuccess response)) /\
            (AnalysisResponse.markdown response <> EmptyString <->
             AnalysisResponse.error response = None)).
  { intros msg Hmsg ->. split.
    - right. split; [now apply failure_isFailure|].
      now apply isFailure_not_isSuccess, failure_isFailure.
    - simpl. split; [congruence | discriminate]. }
  destruct (API_KEY env) as [apiKey|]; [|now apply (Hfail missingKey)].
  destruct (truthy apiKey); [|now apply (Hfail missingKey)].
  destruct (answer env apiKey request b) as [r|e].
  - destruct (truthy_opt (GenAI.text r)) eqn:Htext; [|now apply (Hfail noResponse)].
    destruct Hcase as (text & Hr & ->). rewrite Hr in Htext. simpl in Htext.
    split.
    + left. split; [now apply success_isSuccess|].
      intros Hf. apply (isFailure_not_isSuccess _ Hf). now apply success_isSuccess.
    + simpl. split; [reflexivity|]. intros _. now apply truthy_true_iff.
  - apply (Hfail (or_else (message e) unexpectedError)); [|exact Hcase].
    apply or_else_unexpected_nonempty.
Qed.

End AnalysisClient.

(** An endpoint that answers with an empty text, and one that is down. *)
Lemma analyzeContent_never_throws_witness :
  (exists b',
     GeminiService.analyzeContent Samples.envEmptyAnswer Samples.textRequest Samples.browser0
       = (Normal (failure noResponse), b')) /\
  (exists b',
     GeminiService.analyzeContent Samples.envDown Samples.textRequest Samples.browser0
       = (Normal (failure "503 Service Unavailable"), b')).
Proof.
  split.
  - destruct (analyzeContent_never_throws Samples.envEmptyAnswer Samples.textRequest
                Samples.browser0) as (response & b' & Hrun & _ & _ & Hempty).
    destruct (Hempty "key" {| GenAI.text := Some EmptyString |}) as [-> _];
      [reflexivity | reflexivity | reflexivity | reflexivity |].
    now exists b'.
  - destruct (analyzeContent_never_throws Samples.envDown Samples.textRequest
                Samples.browser0) as (response & b' & Hrun & _ & Hthrow & _).
    destruct (Hthrow "key" (Error "503 Service Unavailable")) as [-> _];
      [reflexivity | reflexivity | reflexivity |].
    now exists b'.
Defined.

(* ===================================================================== *)
(** * The prompt composer                                                 *)
(* ===================================================================== *)

Section PromptComposer.

Lemma buildParts_spec (request : AnalysisRequest.t) :
  GeminiService.buildParts request = imageSegment request ++ [textSegment request].
Proof.
  unfold GeminiService.buildParts, imageSegment, textSegment, promptIntro, quotedEcho,
    fallbackIntro, stripDataUrlPrefix, taskInstruction.
  destruct request as [text payload mime mode]; cbn [AnalysisRequest.text
    AnalysisRequest.imageBase64 AnalysisRequest.imageMimeType AnalysisRequest.mode].
  cbv zeta.
  destruct payload as [payload|], mime as [mime|];
    try destruct (truthy payload && truthy mime);
    destruct mode, (truthy text); reflexivity.
Qed.

Lemma imageSegment_absent (request : AnalysisRequest.t) :
  truthy_opt (AnalysisRequest.imageBase64 request) = false \/
  truthy_opt (AnalysisRequest.imageMimeType request) = false ->
  imageSegment request = [].
Proof.
  unfold imageSegment.
  destruct (AnalysisRequest.imageBase64 request) as [payload|],
    (AnalysisRequest.imageMimeType request) as [mime|]; simpl; try reflexivity.
  intros [-> | ->]; [reflexivity|]. now rewrite andb_false_r.
Qed.

(** C6. The composed content is the inline image segment, present
    exactly when both image fields are non-empty, followed by exactly one
    text segment; the text segment is the quoted echo of the text, or the
    fallback "Analyze the provided image." when the text is empty, each
    closed by a blank line, followed by the task instruction of the mode.
    The content is what is sent, and it is a function of the text, the
    image fields and the mode. *)
Theorem buildParts_composition (request : AnalysisRequest.t) :
  GeminiService.buildParts request = imageSegment request ++ [textSegment request] /\
  GenAI.contents (GeminiService.requestParameters request)
    = imageSegment request ++ [textSegment request] /\
  (imageSegment request = [] \/
   exists payload mime,
     AnalysisRequest.imageBase64 request = Some payload /\ payload <> EmptyString /\
     AnalysisRequest.imageMimeType request = Some mime /\ mime <> EmptyString /\
     imageSegment request = [GenAI.InlineData mime (stripDataUrlPrefix payload)]) /\
  (forall payload mime,
     AnalysisRequest.imageBase64 request = Some payload -> payload <> EmptyString ->
     AnalysisRequest.imageMimeType request = Some mime -> mime <> EmptyString ->
     GeminiService.buildParts request
       = [GenAI.InlineData mime (stripDataUrlPrefix payload); textSegment request]) /\
  List.filter isText (GeminiService.buildParts request) = [textSegment request] /\
  last (GeminiService.buildParts request) = Some (textSegment request) /\
  (AnalysisRequest.text request <> EmptyString ->
   textSegment request =
     GenAI.Text (("User Input: " +:+ dquote +:+ AnalysisRequest.text request +:+ dquote
                  +:+ LF +:+ LF) +:+ taskInstruction (AnalysisRequest.mode request))) /\
  (AnalysisRequest.text request = EmptyString ->
   textSegment request =
     GenAI.Text (("Analyze the provided image." +:+ LF +:+ LF)
                 +:+ taskInstruction (AnalysisRequest.mode request))) /\
  (forall request' : AnalysisRequest.t,
     AnalysisRequest.text request' = AnalysisRequest.text request ->
     AnalysisRequest.imageBase64 request' = AnalysisRequest.imageBase64 request ->
     AnalysisRequest.imageMimeType request' = AnalysisRequest.imageMimeType request ->
     AnalysisRequest.mode request' = AnalysisRequest.mode request ->
     GeminiService.buildParts request' = GeminiService.buildParts request).
Proof.
  assert (Himage : imageSegment request = [] \/
   exists payload mime,
     AnalysisRequest.imageBase64 request = Some payload /\ payload <> EmptyString /\
     AnalysisRequest.imageMimeType request = Some mime /\ mime <> EmptyString /\
     imageSegment request = [GenAI.InlineData mime (stripDataUrlPrefix payload)]).
  { unfold imageSegment.
    destruct (AnalysisRequest.imageBase64 request) as [payload|]; [|now left].
    destruct (AnalysisRequest.imageMimeType request) as [mime|]; [|now left].
    destruct (truthy payload) eqn:Hp; [|now left].
    destruct (truthy mime) eqn:Hm; [|now left].
    right. exists payload, mime. simpl.
    repeat split; try reflexivity; now apply truthy_true_iff. }
  split; [apply buildParts_spec|].
  split; [apply buildParts_spec|].
  split; [exact Himage|].
  split; [|split; [|split; [|split; [|split]]]].
  - intros payload mime Hpayload Hp Hmime Hm.
    apply truthy_true_iff in Hp. apply truthy_true_iff in Hm.
    rewrite buildParts_spec. unfold imageSegment.
    now rewrite Hpayload, Hmime, Hp, Hm.
  - rewrite buildParts_spec.
    destruct Himage as [-> | (payload & mime & _ & _ & _ & _ & ->)]; reflexivity.
  - rewrite buildParts_spec. apply last_snoc.
  - intros Htext. apply truthy_true_iff in Htext.
    unfold textSegment, promptIntro, quotedEcho. now rewrite Htext.
  - intros Htext. apply truthy_false_iff in Htext.
    unfold textSegment, promptIntro, fallbackIntro. now rewrite Htext.
  - intros [text' payload' mime' mode']; destruct request as [text payload mime mode].
    simpl. now intros -> -> -> ->.
Qed.

(** A request with both image fields set and no text. *)
Lemma buildParts_composition_witness :
  GeminiService.buildParts Samples.imageRequest =
    [GenAI.InlineData "image/png" "iVBORw0KGgo=";
     GenAI.Text (("Analyze the provided image." +:+ LF +:+ LF) +:+ taskInstruction DESCRIBE)].
Proof.
  destruct (buildParts_composition Samples.imageRequest) as (Hparts & _).
  rewrite Hparts. reflexivity.
Defined.

(** C10. When the image payload or its MIME type is missing (or empty)
    the inline image segment is left out: the content is the text segment
    alone, and the call completes as it does for the same request without
    any image field, with a success when the endpoint answers with a text. *)
Theorem partial_image_is_omitted (env : Env) (request : AnalysisRequest.t) (b : Browser) :
  truthy_opt (AnalysisRequest.imageBase64 request) = false \/
  truthy_opt (AnalysisRequest.imageMimeType request) = false ->
  GeminiService.buildParts request = [textSegment request] /\
  GeminiService.analyzeContent env request b
    = GeminiService.analyzeContent env (withoutImage request) b /\
  (forall apiKey text,
     API_KEY env = Some apiKey -> truthy apiKey = true ->
     answer env apiKey request b = Normal {| GenAI.text := Some text |} ->
     truthy text = true ->
     GeminiService.analyzeContent env request b
       = (Normal (success text), sent (GeminiService.requestParameters request) b)).
Proof.
  intros Hpartial.
  assert (Hparts : GeminiService.buildParts request = [textSegment request]).
  { rewrite buildParts_spec. now rewrite imageSegment_absent. }
  assert (Hparams : GeminiService.requestParameters (withoutImage request)
                    = GeminiService.requestParameters request).
  { unfold GeminiService.requestParameters. f_equal.
    rewrite Hparts, buildParts_spec. reflexivity. }
  split; [exact Hparts|]. split.
  - unfold GeminiService.analyzeContent. now rewrite Hparams.
  - intros apiKey text Hkey Htruthy Hanswer Htext.
    rewrite (analyzeContent_with_key env request b apiKey Hkey Htruthy).
    cbv zeta. rewrite Hanswer. simpl. now rewrite Htext.
Qed.

(** A payload without its MIME type, with an endpoint that answers. *)
Lemma partial_image_is_omitted_witness :
  GeminiService.buildParts Samples.partialRequest
    = [GenAI.Text (quotedEcho "Read this" +:+ taskInstruction GUIDE)] /\
  eval (GeminiService.analyzeContent Samples.envOk Samples.partialRequest) Samples.browser0
    = Normal (success "## Result").
Proof.
  destruct (partial_image_is_omitted Samples.envOk Samples.partialRequest Samples.browser0)
    as (Hparts & _ & Hrun); [right; reflexivity|].
  split; [exact Hparts|].
  unfold eval. rewrite (Hrun "key" "## Result"); reflexivity.
Defined.

End PromptComposer.

(* ===================================================================== *)
(** * The session controller                                              *)
(* ===================================================================== *)

Section SessionController.

Variable env : Env.

(** What [addToHistory] does, in one equation: the new item is put in
    front of the history that the handler captured, and the write to the
    storage either succeeds or is logged. *)
Lemma addToHistory_run (render : App.AppState) (text response : string) (w : App.World) :
  App.addToHistory env render text response w =
    (Normal tt,
     {| App.app :=
          App.app (exec (App.setHistory
                           (newHistoryItem env render text response (App.browser w)
                            :: App.history render)) w);
        App.browser :=
          persisted env
            (newHistoryItem env render text response (App.browser w) :: App.history render)
            (App.browser w) |}).
Proof.
  unfold App.addToHistory, persisted, newHistoryItem, bind, try_catch, App.liftBrowser,
    Date_now_read, localStorage_setItem, console_error, App.setHistory, App.setApp,
    modify, exec, saveFailedLabel.
  cbn [App.app App.browser localStorage console network clockReads fst snd].
  destruct (setItem_fails env _ _ _); reflexivity.
Qed.

(** A call during which nothing else is handled reads as the text of
    [handleSubmit] does, the [await] giving the response at once. *)
Lemma handleSubmit_uninterrupted (render : App.AppState) (w : App.World) :
  App.handleSubmit env render w =
    (if negb (truthy (App.inputText render)) && negb (truthy_opt (App.selectedImage render))
     then App.setError (Some "Please provide either text or an image to analyze.")
     else
       App.setIsAnalyzing true ;;
       App.setError None ;;
       App.setResponseContent EmptyString ;;
       result <- App.liftBrowser (GeminiService.analyzeContent env (App.request render)) ;;
       App.handleSubmit_finish env render result) w.
Proof.
  unfold App.handleSubmit, App.handleSubmit_begin, App.handleSubmit_resume.
  destruct (negb (truthy (App.inputText render))
            && negb (truthy_opt (App.selectedImage render))); [reflexivity|].
  unfold bind, App.liftBrowser, ret.
  cbn [App.setIsAnalyzing App.setError App.setResponseContent App.setApp modify
       App.app App.browser].
  rewrite analyzeContent_phases.
  destruct (GeminiService.analyzeContent_start env (App.request render) (App.browser w))
    as [[[response|answer]|e] b1]; cbn [App.app App.browser].
  - destruct (App.handleSubmit_finish env render response _) as [[[]|e] w']; reflexivity.
  - destruct (GeminiService.analyzeContent_resume answer b1) as [[result|e] b2];
      reflexivity.
  - reflexivity.
Qed.

(** The guard of [handleSubmit]. *)
Lemma handleSubmit_rejected (render : App.AppState) (w : App.World) :
  truthy (App.inputText render) = false ->
  truthy_opt (App.selectedImage render) = false ->
  App.handleSubmit env render w = App.setError (Some emptySubmission) w.
Proof.
  intros Htext Himage. rewrite handleSubmit_uninterrupted. now rewrite Htext, Himage.
Qed.

(** A submission that passes the guard and whose analysis succeeds. *)
Lemma handleSubmit_succeeded (render : App.AppState) (w : App.World)
    (apiKey markdown : string) :
  truthy (App.inputText render) || truthy_opt (App.selectedImage render) = true ->
  API_KEY env = Some apiKey -> truthy apiKey = true ->
  answer env apiKey (App.request render) (App.browser w)
    = Normal {| GenAI.text := Some markdown |} ->
  truthy markdown = true ->
  exists w',
    App.handleSubmit env render w = (Normal tt, w') /\
    App.history (App.app w')
      = newHistoryItem env render (App.inputText render) markdown (App.browser w)
        :: App.history render /\
    App.responseContent (App.app w') = markdown /\
    App.error (App.app w') = None /\
    App.isAnalyzing (App.app w') = false.
Proof.
  intros Hguard Hkey Htruthy Hanswer Hmarkdown.
  rewrite handleSubmit_uninterrupted.
  assert (Hg : negb (truthy (App.inputText render))
               && negb (truthy_opt (App.selectedImage render)) = false).
  { destruct (truthy (App.inputText render)), (truthy_opt (App.selectedImage render));
      simpl in *; congruence. }
  rewrite Hg.
  unfold bind at 1 2 3 4, App.liftBrowser.
  cbn [App.setIsAnalyzing App.setError App.setResponseContent App.setApp modify
       App.app App.browser].
  rewrite (analyzeContent_with_key env (App.request render) (App.browser w) apiKey Hkey Htruthy).
  cbv zeta. rewrite Hanswer. cbn [GenAI.text]. rewrite Hmarkdown.
  unfold App.handleSubmit_finish, bind, success, App.setIsAnalyzing, App.setResponseContent,
    App.setApp, modify.
  cbn [AnalysisResponse.error AnalysisResponse.markdown truthy_opt App.app App.browser].
  rewrite addToHistory_run.
  eexists. split; [reflexivity|].
  cbn. unfold newHistoryItem. cbn. repeat split.
Qed.

(** C1. A submission with an empty text and no selected image is
    rejected before [analyzeContent] is called: the validation error is
    set, the session is not put in the analyzing state, the history is the
    same, and the browser state is the same, whereas every call of
    [analyzeContent] changes it (a request sent or an error logged). *)
Theorem handleSubmit_rejects_empty_submission (w : App.World) :
  App.inputText (App.app w) = EmptyString ->
  App.selectedImage (App.app w) = None \/ App.selectedImage (App.app w) = Some EmptyString ->
  exists w',
    App.submit env w = (Normal tt, w') /\
    w' = exec (App.setError (Some emptySubmission)) w /\
    App.error (App.app w') = Some emptySubmission /\
    App.isAnalyzing (App.app w') = App.isAnalyzing (App.app w) /\
    App.history (App.app w') = App.history (App.app w) /\
    App.browser w' = App.browser w /\
    (forall request,
       App.browser w' <> exec (GeminiService.analyzeContent env request) (App.browser w)).
Proof.
  intros Htext Himage.
  apply truthy_false_iff in Htext. apply truthy_opt_false_iff in Himage.
  exists (exec (App.setError (Some emptySubmission)) w).
  unfold App.submit, App.dispatch.
  rewrite (handleSubmit_rejected (App.app w) w Htext Himage).
  repeat split.
  intros request Heq. cbn in Heq.
  now apply (analyzeContent_leaves_trace env request (App.browser w)).
Qed.

(** When nothing else is handled while the request is pending, a
    successful analysis appends exactly one item: the history after the
    submission is the new item followed by the history before it, in the
    same order.  (The analysis succeeds when the submission passes the
    guard, the credential is set and the endpoint answers with a non-empty
    text; the write to the storage may fail or not.) *)
Theorem successful_analysis_prepends_one_item (w : App.World) (apiKey markdown : string) :
  App.inputText (App.app w) <> EmptyString \/
    truthy_opt (App.selectedImage (App.app w)) = true ->
  API_KEY env = Some apiKey -> apiKey <> EmptyString ->
  answer env apiKey (App.request (App.app w)) (App.browser w)
    = Normal {| GenAI.text := Some markdown |} ->
  markdown <> EmptyString ->
  exists w' newItem,
    App.submit env w = (Normal tt, w') /\
    App.history (App.app w') = newItem :: App.history (App.app w) /\
    length (App.history (App.app w')) = S (length (App.history (App.app w))) /\
    (forall i, App.history (App.app w') !! S i = App.history (App.app w) !! i) /\
    newItem =
      {| HistoryItem.id := pretty (Date_now env (clockReads (App.browser w)));
         HistoryItem.timestamp := Date_now env (S (clockReads (App.browser w)));
         HistoryItem.mode := App.selectedMode (App.app w);
         HistoryItem.inputText := App.inputText (App.app w);
         HistoryItem.response := markdown;
         HistoryItem.hasImage := truthy_opt (App.selectedImage (App.app w)) |} /\
    App.responseContent (App.app w') = markdown /\
    App.error (App.app w') = None.
Proof.
  intros Hguard Hkey Htruthy Hanswer Hmarkdown.
  apply truthy_true_iff in Htruthy. apply truthy_true_iff in Hmarkdown.
  assert (Hg : truthy (App.inputText (App.app w))
               || truthy_opt (App.selectedImage (App.app w)) = true).
  { destruct Hguard as [Htext | Himage].
    - apply truthy_true_iff in Htext. now rewrite Htext.
    - rewrite Himage. apply orb_true_r. }
  destruct (handleSubmit_succeeded (App.app w) w apiKey markdown Hg Hkey Htruthy Hanswer Hmarkdown)
    as (w' & Hrun & Hhistory & Hresponse & Herror & _).
  exists w', (newHistoryItem env (App.app w) (App.inputText (App.app w)) markdown (App.browser w)).
  split; [exact Hrun|]. split; [exact Hhistory|].
  split; [now rewrite Hhistory|]. split; [intros i; now rewrite Hhistory|].
  split; [reflexivity|]. split; assumption.
Qed.

End SessionController.

(** The initial state, where nothing was typed or selected. *)
Lemma handleSubmit_rejects_empty_submission_witness :
  exists w',
    App.submit Samples.envOk Samples.world0 = (Normal tt, w') /\
    App.error (App.app w') = Some emptySubmission /\
    App.isAnalyzing (App.app w') = false /\
    App.history (App.app w') = [] /\
    App.browser w' = Samples.browser0.
Proof.
  destruct (handleSubmit_rejects_empty_submission Samples.envOk Samples.world0)
    as (w' & Hrun & _ & Herror & Hidle & Hhistory & Hbrowser & _);
    [reflexivity | left; reflexivity |].
  exists w'. repeat split; assumption.
Defined.

(** A typed question, two saved interactions, a configured credential
    and an endpoint that answers. *)
Lemma successful_analysis_prepends_one_item_witness :
  exists w' newItem,
    App.submit Samples.envOk Scenarios.worldWithHistory = (Normal tt, w') /\
    App.history (App.app w') = [newItem; Scenarios.imageAndTextItem; Samples.pastItem] /\
    HistoryItem.response newItem = "## Result" /\
    HistoryItem.id newItem = "1730000000000".
Proof.
  destruct (successful_analysis_prepends_one_item Samples.envOk Scenarios.worldWithHistory
              "key" "## Result")
    as (w' & newItem & Hrun & Hhistory & _ & _ & Hitem & _);
    [left; discriminate | reflexivity | discriminate | reflexivity | discriminate |].
  exists w', newItem. split; [exact Hrun|]. split; [exact Hhistory|].
  rewrite Hitem. split; reflexivity.
Defined.

(* ===================================================================== *)
(** * The history                                                         *)
(* ===================================================================== *)

(** C9. When the write of the updated history is refused by the storage,
    [addToHistory] still completes normally: the exception is caught and
    written on the console, the history in memory has the new item at its
    front, the storage is as it was, and the error slot shown to the user
    is untouched. *)
Theorem addToHistory_keeps_item_when_storage_fails (env : Env) (render : App.AppState)
    (text response : string) (w : App.World) (e : JsError) :
  setItem_fails env (localStorage (App.browser w)) App.storageKey
    (JSON.stringify (newHistoryItem env render text response (App.browser w)
                     :: App.history render)) = Some e ->
  exists w',
    App.addToHistory env render text response w = (Normal tt, w') /\
    App.history (App.app w')
      = newHistoryItem env render text response (App.browser w) :: App.history render /\
    App.error (App.app w') = App.error (App.app w) /\
    App.responseContent (App.app w') = App.responseContent (App.app w) /\
    localStorage (App.browser w') = localStorage (App.browser w) /\
    console (App.browser w') = console (App.browser w) ++ [(saveFailedLabel, e)].
Proof.
  intros Hfull. rewrite addToHistory_run. eexists. split; [reflexivity|].
  unfold persisted. rewrite Hfull. cbn. repeat split.
Qed.

(** A storage that is full, during the first successful analysis. *)
Lemma addToHistory_keeps_item_when_storage_fails_witness :
  exists w',
    App.addToHistory Samples.envStorageFull (App.app Samples.worldWithText)
      "What is on this page?" "## Result" Samples.worldWithText = (Normal tt, w') /\
    length (App.history (App.app w')) = 1 /\
    App.error (App.app w') = None /\
    localStorage (App.browser w') = ∅ /\
    console (App.browser w') = [(saveFailedLabel, Samples.quotaExceeded)].
Proof.
  destruct (addToHistory_keeps_item_when_storage_fails Samples.envStorageFull
              (App.app Samples.worldWithText) "What is on this page?" "## Result"
              Samples.worldWithText Samples.quotaExceeded)
    as (w' & Hrun & Hhistory & Herror & _ & Hstorage & Hconsole); [reflexivity|].
  exists w'. split; [exact Hrun|].
  split; [now rewrite Hhistory|]. split; [exact Herror|]. split; assumption.
Defined.

(** What [loadHistoryItem] does, in one equation. *)
Lemma loadHistoryItem_run (item : HistoryItem.t) (w : App.World) :
  App.loadHistoryItem item w =
    (Normal tt,
     {| App.app :=
          {| App.selectedMode := HistoryItem.mode item;
             App.inputText := HistoryItem.inputText item;
             App.selectedImage :=
               if HistoryItem.hasImage item then None else App.selectedImage (App.app w);
             App.imageMimeType :=
               if HistoryItem.hasImage item then None else App.imageMimeType (App.app w);
             App.isAnalyzing := App.isAnalyzing (App.app w);
             App.responseContent := HistoryItem.response item;
             App.error := None;
             App.history := App.history (App.app w);
             App.showHistory := false;
             App.isListening := App.isListening (App.app w) |};
        App.browser := App.browser w |}).
Proof.
  unfold App.loadHistoryItem. destruct (HistoryItem.hasImage item); reflexivity.
Qed.

(** C5, as stated, fails: loading an item that had no image leaves the
    currently selected image in place. *)
Lemma loadHistoryItem_keeps_image_counterexample :
  HistoryItem.hasImage Samples.pastItem = false /\
  App.selectedImage (App.app Samples.worldWithImage)
    = Some "data:image/png;base64,iVBORw0KGgo=" /\
  App.selectedImage (App.app (exec (App.loadHistoryItem Samples.pastItem) Samples.worldWithImage))
    = Some "data:image/png;base64,iVBORw0KGgo=" /\
  App.selectedImage (App.app (exec (App.loadHistoryItem Samples.pastItem) Samples.worldWithImage))
    <> None.
Proof. repeat split. discriminate. Qed.

(** C5, amended. Loading an item restores its mode, input text and
    response text, clears the error and closes the history drawer; the
    selected image and its MIME type are cleared when the item is flagged
    as having had an image, and are left as they are otherwise, so that
    no image is ever restored from the item; loading the same item twice
    gives the same state as loading it once. *)
Theorem loadHistoryItem_restores (item : HistoryItem.t) (w : App.World) :
  exists w',
    App.loadHistoryItem item w = (Normal tt, w') /\
    App.selectedMode (App.app w') = HistoryItem.mode item /\
    App.inputText (App.app w') = HistoryItem.inputText item /\
    App.responseContent (App.app w') = HistoryItem.response item /\
    App.error (App.app w') = None /\
    App.showHistory (App.app w') = false /\
    (HistoryItem.hasImage item = true ->
       App.selectedImage (App.app w') = None /\ App.imageMimeType (App.app w') = None) /\
    (HistoryItem.hasImage item = false ->
       App.selectedImage (App.app w') = App.selectedImage (App.app w) /\
       App.imageMimeType (App.app w') = App.imageMimeType (App.app w)) /\
    (App.selectedImage (App.app w') = None \/
     App.selectedImage (App.app w') = App.selectedImage (App.app w)) /\
    App.history (App.app w') = App.history (App.app w) /\
    App.browser w' = App.browser w /\
    App.loadHistoryItem item w' = (Normal tt, w').
Proof.
  rewrite loadHistoryItem_run. eexists. split; [reflexivity|].
  rewrite loadHistoryItem_run. cbn.
  destruct (HistoryItem.hasImage item); repeat split; intros; try discriminate; auto.
Qed.

(** An item flagged as having had an image, loaded over a selected image. *)
Lemma loadHistoryItem_restores_witness :
  exists w',
    App.loadHistoryItem
      {| HistoryItem.id := "1729999999000"; HistoryItem.timestamp := 1729999999000;
         HistoryItem.mode := SIMPLIFY; HistoryItem.inputText := EmptyString;
         HistoryItem.response := "## Summary"; HistoryItem.hasImage := true |}
      Samples.worldWithImage = (Normal tt, w') /\
    App.selectedMode (App.app w') = SIMPLIFY /\
    App.responseContent (App.app w') = "## Summary" /\
    App.selectedImage (App.app w') = None /\
    App.imageMimeType (App.app w') = None.
Proof.
  destruct (loadHistoryItem_restores
              {| HistoryItem.id := "1729999999000"; HistoryItem.timestamp := 1729999999000;
                 HistoryItem.mode := SIMPLIFY; HistoryItem.inputText := EmptyString;
                 HistoryItem.response := "## Summary"; HistoryItem.hasImage := true |}
              Samples.worldWithImage)
    as (w' & Hrun & Hmode & _ & Hresponse & _ & _ & Hclear & _).
  exists w'. split; [exact Hrun|]. split; [exact Hmode|]. split; [exact Hresponse|].
  apply Hclear. reflexivity.
Defined.

(* ===================================================================== *)
(** * The response renderer                                               *)
(* ===================================================================== *)

Section SplitFacts.

Lemma startsWith_append (p s : string) : startsWith p (p +:+ s) = true.
Proof.
  induction p as [|c p IH]; [reflexivity|].
  rewrite append_cons. simpl. now rewrite Ascii.eqb_refl.
Qed.

(** The rest of a separator occurrence is passed over. *)
Lemma split_go_skip (sep p cur s : string) :
  split_go sep (String.length p) cur (p +:+ s) = split_go sep 0 cur s.
Proof.
  induction p as [|c p IH]; [reflexivity|].
  rewrite append_cons. simpl. exact IH.
Qed.

(** At an occurrence of the separator the current piece is closed. *)
Lemma split_go_hit (c : ascii) (sep' cur rest : string) :
  split_go (String c sep') 0 cur (String c sep' +:+ rest)
    = cur :: split_go (String c sep') 0 EmptyString rest.
Proof.
  pose proof (startsWith_append (String c sep') rest) as Hstart.
  rewrite append_cons in *.
  change (split_go (String c sep') 0 cur (String c (sep' +:+ rest)))
    with (if startsWith (String c sep') (String c (sep' +:+ rest))
          then cur :: split_go (String c sep') (Nat.pred (String.length (String c sep')))
                        EmptyString (sep' +:+ rest)
          else split_go (String c sep') 0 (cur +:+ String c EmptyString) (sep' +:+ rest)).
  rewrite Hstart. simpl Nat.pred. now rewrite split_go_skip.
Qed.

(** Where no occurrence starts, the code units join the current piece. *)
Lemma split_go_miss (sep a t : string) :
  forall cur, occursWithin sep a t = false ->
  split_go sep 0 cur (a +:+ t) = split_go sep 0 (cur +:+ a) t.
Proof.
  induction a as [|c a IH]; intros cur Hfree.
  - now rewrite append_empty_r.
  - simpl in Hfree. apply orb_false_elim in Hfree as [Hhere Hlater].
    rewrite append_cons in *.
    change (split_go sep 0 cur (String c (a +:+ t)))
      with (if startsWith sep (String c (a +:+ t))
            then cur :: split_go sep (Nat.pred (String.length sep)) EmptyString (a +:+ t)
            else split_go sep 0 (cur +:+ String c EmptyString) (a +:+ t)).
    rewrite Hhere, (IH _ Hlater), append_assoc. reflexivity.
Qed.

Lemma occursWithin_end (sep a : string) :
  includes sep a = false -> occursWithin sep a EmptyString = false.
Proof.
  induction a as [|c a IH]; [reflexivity|].
  intros Hinc. simpl in Hinc. apply orb_false_elim in Hinc as [Hhere Hlater].
  simpl. rewrite append_empty_r.
  now rewrite Hhere, (IH Hlater).
Qed.

Lemma startsWith_cons (x y : ascii) (p s : string) :
  startsWith (String x p) (String y s) = if Ascii.eqb x y then startsWith p s else false.
Proof. reflexivity. Qed.

Lemma includes_cons (p : string) (c : ascii) (s : string) :
  includes p (String c s) = startsWith p (String c s) || includes p s.
Proof. reflexivity. Qed.

Lemma occursWithin_cons (sep : string) (c : ascii) (a t : string) :
  occursWithin sep (String c a) t
    = startsWith sep (String c a +:+ t) || occursWithin sep a t.
Proof. reflexivity. Qed.

(** No delimiter starts inside [a], not even one that the first star of
    a following delimiter would complete. *)
Lemma occursWithin_before_delimiter (a rest : string) :
  includes "**" (a +:+ "*") = false ->
  occursWithin "**" a ("**" +:+ rest) = false.
Proof.
  induction a as [|c a IH]; [reflexivity|].
  intros Hinc. rewrite append_cons, includes_cons in Hinc.
  apply orb_false_elim in Hinc as [Hhere Hlater].
  rewrite occursWithin_cons, (IH Hlater), orb_false_r, append_cons.
  rewrite startsWith_cons in *.
  destruct (Ascii.eqb "*" c); [|reflexivity].
  destruct a as [|d a].
  - rewrite append_empty_l in Hhere. discriminate Hhere.
  - rewrite append_cons in *. rewrite startsWith_cons in *.
    destruct (Ascii.eqb "*" d); [discriminate Hhere | reflexivity].
Qed.

Lemma split_no_delimiter (cur c : string) :
  includes "**" c = false -> split_go "**" 0 cur c = [cur +:+ c].
Proof.
  intros Hinc. rewrite <- (append_empty_r c) at 1.
  now rewrite split_go_miss by now apply occursWithin_end.
Qed.

Lemma split_one_delimiter (cur a rest : string) :
  includes "**" (a +:+ "*") = false ->
  split_go "**" 0 cur (a +:+ "**" +:+ rest)
    = (cur +:+ a) :: split_go "**" 0 EmptyString rest.
Proof.
  intros Hinc.
  rewrite split_go_miss by now apply occursWithin_before_delimiter.
  apply split_go_hit.
Qed.

(** Two delimiters cut a line in three. *)
Lemma split_two_delimiters (a b c : string) :
  includes "**" (a +:+ "*") = false ->
  includes "**" (b +:+ "*") = false ->
  includes "**" c = false ->
  split "**" (a +:+ "**" +:+ b +:+ "**" +:+ c) = [a; b; c].
Proof.
  intros Ha Hb Hc. unfold split.
  rewrite (split_one_delimiter _ _ _ Ha), (split_one_delimiter _ _ _ Hb),
    (split_no_delimiter _ _ Hc).
  reflexivity.
Qed.

End SplitFacts.

Section Renderer.

Lemma boldRun_parity (i : nat) (part : string) :
  OutputDisplay.boldRun i part = if Nat.odd i then bold i part else plain part.
Proof.
  unfold OutputDisplay.boldRun, bold, plain.
  replace (i mod 2 =? 1) with (Nat.odd i); [reflexivity|].
  rewrite <- Nat.bit0_mod, Nat.bit0_odd. now destruct (Nat.odd i).
Qed.

(** C7. The sample text renders to a sub-heading "Title", a spacer and
    the two bullet items "Point one" and "Point two", in that order, and
    to nothing else. *)
Theorem renderContent_sample :
  OutputDisplay.renderContent
    ("## Title" +:+ LF +:+ LF +:+ "* Point one" +:+ LF +:+ "* Point two")
  = [subHeading 0 "Title"; spacer 1; bulletItem 2 "Point one"; bulletItem 3 "Point two"].
Proof. vm_compute. reflexivity. Qed.

(** C8, as stated, fails: a bullet line that contains the delimiter is
    rendered as a list item with the stars left in its text, not as a
    paragraph of plain and bold runs. *)
Lemma renderLine_bold_counterexample :
  includes "**" "* **Tip** Use the menu" = true /\
  OutputDisplay.renderLine "* **Tip** Use the menu" 0
    = bulletItem 0 "**Tip** Use the menu" /\
  OutputDisplay.renderLine "* **Tip** Use the menu" 0
    <> paragraph 0 (imap OutputDisplay.boldRun (split "**" "* **Tip** Use the menu")).
Proof. repeat split. vm_compute. discriminate. Qed.

(** C8, amended. A line that contains the delimiter and that is neither
    a heading line (starting with "## " or "# ") nor a bullet line (its
    trimmed form starting with "* " or "- ") is rendered as a paragraph
    whose runs are the pieces of the line split at every occurrence of the
    delimiter, the odd-indexed ones bold and the even-indexed ones plain;
    with exactly two delimiters the runs are plain, bold, plain, and the
    bold one is the text between the delimiters. *)
Theorem renderLine_bold_paragraph (line : string) (index : nat) :
  includes "**" line = true ->
  startsWith "## " line = false ->
  startsWith "# " line = false ->
  startsWith "* " (trim line) = false ->
  startsWith "- " (trim line) = false ->
  OutputDisplay.renderLine line index
    = paragraph index (imap OutputDisplay.boldRun (split "**" line)) /\
  (forall i part,
     split "**" line !! i = Some part ->
     imap OutputDisplay.boldRun (split "**" line) !! i
       = Some (if Nat.odd i then bold i part else plain part)) /\
  (forall a b c,
     line = a +:+ "**" +:+ b +:+ "**" +:+ c ->
     includes "**" (a +:+ "*") = false ->
     includes "**" (b +:+ "*") = false ->
     includes "**" c = false ->
     OutputDisplay.renderLine line index = paragraph index [plain a; bold 1 b; plain c]).
Proof.
  intros Hbold Hh3 Hh2 Hstar Hdash.
  assert (Hrender : OutputDisplay.renderLine line index
                    = paragraph index (imap OutputDisplay.boldRun (split "**" line))).
  { unfold OutputDisplay.renderLine. now rewrite Hh3, Hh2, Hstar, Hdash, Hbold. }
  split; [exact Hrender|]. split.
  - intros i part Hpart.
    now rewrite list_lookup_imap, Hpart, <- boldRun_parity.
  - intros a b c Hline Ha Hb Hc.
    rewrite Hrender, Hline, (split_two_delimiters a b c Ha Hb Hc). reflexivity.
Qed.

(** A sentence with one emphasised word. *)
Lemma renderLine_bold_paragraph_witness :
  OutputDisplay.renderLine "Press **Enter** to continue." 4
    = paragraph 4 [plain "Press "; bold 1 "Enter"; plain " to continue."].
Proof.
  destruct (renderLine_bold_paragraph "Press **Enter** to continue." 4)
    as (_ & _ & Htwo);
    [reflexivity | reflexivity | reflexivity | reflexivity | reflexivity |].
  apply (Htwo "Press " "Enter" " to continue."); reflexivity.
Defined.

End Renderer.

(* ===================================================================== *)
(** * The analysis client: what is sent and what is logged                *)
(* ===================================================================== *)

Section ClientTraffic.

Variable env : Env.

(** X1. Without a credential [analyzeContent] sends nothing: the list of
    requests, the storage and the clock are untouched, and the only
    effect is one error on the console. *)
Theorem analyzeContent_without_key_sends_nothing (request : AnalysisRequest.t) (b : Browser) :
  API_KEY env = None \/ API_KEY env = Some EmptyString ->
  exists b',
    GeminiService.analyzeContent env request b = (Normal (failure missingKey), b') /\
    network b' = network b /\
    console b' = console b ++ [(apiErrorLabel, Error missingKey)] /\
    localStorage b' = localStorage b /\
    clockReads b' = clockReads b.
Proof.
  intros Hkey. apply truthy_opt_false_iff in Hkey.
  rewrite (analyzeContent_missing_key env request b Hkey).
  eexists. split; [reflexivity|]. repeat split.
Qed.

(** X2. With a credential [analyzeContent] sends exactly one request,
    whatever the endpoint answers: it names the model, carries the system
    instruction and the temperature 0.2, and its content is the composed
    parts.  The storage and the clock are untouched. *)
Theorem analyzeContent_sends_exactly_one_request (request : AnalysisRequest.t) (b : Browser)
    (apiKey : string) :
  API_KEY env = Some apiKey -> apiKey <> EmptyString ->
  exists response b' params,
    GeminiService.analyzeContent env request b = (Normal response, b') /\
    network b' = network b ++ [params] /\
    GenAI.model params = "gemini-3-pro-preview" /\
    GenAI.systemInstruction params = Constants.SYSTEM_INSTRUCTION /\
    GenAI.temperature params = 0x1.999999999999ap-3%float /\
    GenAI.contents params = GeminiService.buildParts request /\
    localStorage b' = localStorage b /\
    clockReads b' = clockReads b.
Proof.
  intros Hkey Htruthy. apply truthy_true_iff in Htruthy.
  rewrite (analyzeContent_with_key env request b apiKey Hkey Htruthy). cbv zeta.
  destruct (answer env apiKey request b) as [r|e];
    [destruct (GenAI.text r) as [text|]; [destruct (truthy text)|]|];
    eexists _, _, (GeminiService.requestParameters request);
    (split; [reflexivity|]); repeat split.
Qed.

(** X3. The console is written exactly when the analysis fails: a
    success logs nothing, a failure logs one entry, and the error message
    of the response is the message of the logged exception, or the
    generic message when that one is missing or empty. *)
Theorem analyzeContent_logs_exactly_the_failures (request : AnalysisRequest.t) (b : Browser) :
  exists response b',
    GeminiService.analyzeContent env request b = (Normal response, b') /\
    ((isSuccess response /\ console b' = console b) \/
     (exists e,
        console b' = console b ++ [(apiErrorLabel, e)] /\
        response = failure (or_else (message e) unexpectedError))).
Proof.
  destruct (truthy_opt (API_KEY env)) eqn:Hkey.
  - destruct (API_KEY env) as [apiKey|] eqn:Hk; [|discriminate]. simpl in Hkey.
    rewrite (analyzeContent_with_key env request b apiKey Hk Hkey). cbv zeta.
    destruct (answer env apiKey request b) as [r|e].
    + destruct (GenAI.text r) as [text|]; [destruct (truthy text) eqn:Htext|].
      * eexists _, _. split; [reflexivity|]. left.
        split; [now apply success_isSuccess | reflexivity].
      * eexists _, _. split; [reflexivity|]. right. exists (Error noResponse). now split.
      * eexists _, _. split; [reflexivity|]. right. exists (Error noResponse). now split.
    + eexists _, _. split; [reflexivity|]. right. exists e. now split.
  - rewrite (analyzeContent_missing_key env request b Hkey).
    eexists _, _. split; [reflexivity|]. right. exists (Error missingKey). now split.
Qed.

End ClientTraffic.

Lemma analyzeContent_without_key_sends_nothing_witness :
  exists b',
    GeminiService.analyzeContent Samples.envNoKey Samples.imageRequest Samples.browser0
      = (Normal (failure missingKey), b') /\
    network b' = [] /\
    console b' = [(apiErrorLabel, Error missingKey)].
Proof.
  destruct (analyzeContent_without_key_sends_nothing Samples.envNoKey Samples.imageRequest
              Samples.browser0) as (b' & Hrun & Hnet & Hlog & _); [left; reflexivity|].
  exists b'. split; [exact Hrun|]. split; assumption.
Defined.

Lemma analyzeContent_sends_exactly_one_request_witness :
  exists response b',
    GeminiService.analyzeContent Samples.envDown Samples.textRequest Samples.browser0
      = (Normal response, b') /\
    length (network b') = 1.
Proof.
  destruct (analyzeContent_sends_exactly_one_request Samples.envDown Samples.textRequest
              Samples.browser0 "key") as (response & b' & params & Hrun & Hnet & _);
    [reflexivity | discriminate |].
  exists response, b'. split; [exact Hrun|]. now rewrite Hnet.
Defined.

(* ===================================================================== *)
(** * The prompt composer: the image payload                              *)
(* ===================================================================== *)

Section ImagePayload.

Lemma includes_unit_cons (c d : ascii) (s : string) :
  includes (String c EmptyString) (String d s)
    = Ascii.eqb c d || includes (String c EmptyString) s.
Proof.
  rewrite includes_cons, startsWith_cons. now destruct (Ascii.eqb c d).
Qed.

(** A one-unit separator that does not occur in [a] does not start
    inside [a], whatever follows. *)
Lemma occursWithin_unit (c : ascii) (a t : string) :
  includes (String c EmptyString) a = false ->
  occursWithin (String c EmptyString) a t = false.
Proof.
  induction a as [|d a IH]; [reflexivity|].
  rewrite includes_unit_cons. intros Hinc.
  apply orb_false_elim in Hinc as [Hd Ha].
  rewrite occursWithin_cons, (IH Ha), append_cons, startsWith_cons, Hd. reflexivity.
Qed.

Lemma split_unit_absent (c : ascii) (s : string) :
  includes (String c EmptyString) s = false ->
  split (String c EmptyString) s = [s].
Proof.
  intros Hinc. unfold split.
  rewrite <- (append_empty_r s) at 1.
  rewrite split_go_miss by now apply occursWithin_unit.
  reflexivity.
Qed.

Lemma split_unit_once (c : ascii) (a s : string) :
  includes (String c EmptyString) a = false ->
  split (String c EmptyString) (a +:+ String c EmptyString +:+ s)
    = a :: split (String c EmptyString) s.
Proof.
  intros Hinc. unfold split.
  rewrite split_go_miss by now apply occursWithin_unit.
  apply split_go_hit.
Qed.

(** The inline image segment of a payload [header,data]. *)
Lemma buildParts_data_url (request : AnalysisRequest.t) (header data mime : string) :
  AnalysisRequest.imageBase64 request = Some (header +:+ "," +:+ data) ->
  includes "," header = false ->
  includes "," data = false ->
  AnalysisRequest.imageMimeType request = Some mime -> mime <> EmptyString ->
  GeminiService.buildParts request
    = [GenAI.InlineData mime (if truthy data then data else header +:+ ",");
       textSegment request].
Proof.
  intros Hpayload Hheader Hdata Hmime Hm. apply truthy_true_iff in Hm.
  rewrite buildParts_spec. unfold imageSegment, stripDataUrlPrefix.
  rewrite Hpayload, Hmime, Hm, andb_true_r.
  assert (Hnonempty : truthy (header +:+ "," +:+ data) = true).
  { destruct header; reflexivity. }
  rewrite Hnonempty, (split_unit_once _ _ _ Hheader), (split_unit_absent _ _ Hdata).
  cbn [lookup list_lookup or_else].
  destruct (truthy data) eqn:Htruthy; [reflexivity|].
  apply truthy_false_iff in Htruthy. now subst data.
Qed.

(** X4. A data URL is stripped of its prefix: when the payload is
    [header,data] with no comma in [header] or in [data], the inline
    image segment carries [data] alone, with the MIME type of the
    request.  When [data] is empty the whole payload is forwarded. *)
Theorem buildParts_strips_data_url_prefix (request : AnalysisRequest.t)
    (header data mime : string) :
  AnalysisRequest.imageBase64 request = Some (header +:+ "," +:+ data) ->
  includes "," header = false ->
  includes "," data = false ->
  AnalysisRequest.imageMimeType request = Some mime -> mime <> EmptyString ->
  GeminiService.buildParts request
    = [GenAI.InlineData mime (if truthy data then data else header +:+ ",");
       textSegment request].
Proof. apply buildParts_data_url. Qed.

(** X5. A payload that is not a data URL (it has no comma) is forwarded
    as it is. *)
Theorem buildParts_keeps_bare_payload (request : AnalysisRequest.t) (payload mime : string) :
  AnalysisRequest.imageBase64 request = Some payload -> payload <> EmptyString ->
  includes "," payload = false ->
  AnalysisRequest.imageMimeType request = Some mime -> mime <> EmptyString ->
  GeminiService.buildParts request = [GenAI.InlineData mime payload; textSegment request].
Proof.
  intros Hpayload Hp Hcomma Hmime Hm.
  apply truthy_true_iff in Hp. apply truthy_true_iff in Hm.
  rewrite buildParts_spec. unfold imageSegment, stripDataUrlPrefix.
  rewrite Hpayload, Hmime, Hp, Hm, (split_unit_absent _ _ Hcomma). reflexivity.
Qed.

End ImagePayload.

Lemma buildParts_strips_data_url_prefix_witness :
  GeminiService.buildParts Samples.imageRequest
    = [GenAI.InlineData "image/png" "iVBORw0KGgo="; textSegment Samples.imageRequest].
Proof.
  apply (buildParts_strips_data_url_prefix Samples.imageRequest
           "data:image/png;base64" "iVBORw0KGgo=" "image/png");
    [reflexivity | reflexivity | reflexivity | reflexivity | discriminate].
Defined.

Lemma buildParts_keeps_bare_payload_witness :
  GeminiService.buildParts
    {| AnalysisRequest.text := EmptyString;
       AnalysisRequest.imageBase64 := Some "iVBORw0KGgo=";
       AnalysisRequest.imageMimeType := Some "image/png";
       AnalysisRequest.mode := DESCRIBE |}
  = [GenAI.InlineData "image/png" "iVBORw0KGgo=";
     GenAI.Text (fallbackIntro +:+ taskInstruction DESCRIBE)].
Proof.
  rewrite (buildParts_keeps_bare_payload _ "iVBORw0KGgo=" "image/png");
    [reflexivity | reflexivity | discriminate | reflexivity | reflexivity | discriminate].
Defined.

(* ===================================================================== *)
(** * The session controller: the outcome of a submission                 *)
(* ===================================================================== *)

Section SubmissionOutcome.

Variable env : Env.

(** The response of [analyzeContent] and the browser state it leaves. *)
Lemma analyzeContent_shape (request : AnalysisRequest.t) (b : Browser) :
  exists response b',
    GeminiService.analyzeContent env request b = (Normal response, b') /\
    localStorage b' = localStorage b /\
    clockReads b' = clockReads b /\
    network b' = (if truthy_opt (API_KEY env)
                  then network b ++ [GeminiService.requestParameters request]
                  else network b) /\
    ((exists text, truthy text = true /\ response = success text) \/
     (exists msg, msg <> EmptyString /\ response = failure msg)).
Proof.
  destruct (truthy_opt (API_KEY env)) eqn:Hkey.
  - destruct (API_KEY env) as [apiKey|] eqn:Hk; [|discriminate]. simpl in Hkey.
    rewrite (analyzeContent_with_key env request b apiKey Hk Hkey). cbv zeta.
    destruct (answer env apiKey request b) as [r|e].
    + destruct (GenAI.text r) as [text|]; [destruct (truthy text) eqn:Htext|];
        eexists _, _; (split; [reflexivity|]); repeat split.
      * left. now exists text.
      * right. exists noResponse. now split.
      * right. exists noResponse. now split.
    + eexists _, _. split; [reflexivity|]. repeat split.
      right. eexists. split; [apply or_else_unexpected_nonempty | reflexivity].
  - rewrite (analyzeContent_missing_key env request b Hkey).
    eexists _, _. split; [reflexivity|]. repeat split.
    right. exists missingKey. now split.
Qed.

Lemma accepted_guard (render : App.AppState) :
  accepted render = true ->
  negb (truthy (App.inputText render)) && negb (truthy_opt (App.selectedImage render)) = false.
Proof.
  unfold accepted.
  destruct (truthy (App.inputText render)), (truthy_opt (App.selectedImage render));
    simpl; congruence.
Qed.

(** An accepted submission whose analysis fails. *)
Lemma handleSubmit_failed_run (render : App.AppState) (w : App.World) (msg : string)
    (b' : Browser) :
  accepted render = true ->
  GeminiService.analyzeContent env (App.request render) (App.browser w)
    = (Normal (failure msg), b') ->
  msg <> EmptyString ->
  App.handleSubmit env render w
    = (Normal tt, {| App.app := failedState msg (App.app w); App.browser := b' |}).
Proof.
  intros Hacc Hrun Hmsg. apply truthy_true_iff in Hmsg.
  rewrite handleSubmit_uninterrupted, (accepted_guard render Hacc).
  unfold bind at 1 2 3 4, App.liftBrowser.
  cbn [App.setIsAnalyzing App.setError App.setResponseContent App.setApp modify
       App.app App.browser].
  rewrite Hrun.
  unfold App.handleSubmit_finish, bind, failure, App.setIsAnalyzing, App.setError,
    App.setApp, modify.
  cbn [AnalysisResponse.error AnalysisResponse.markdown truthy_opt App.app App.browser].
  rewrite Hmsg. reflexivity.
Qed.

(** An accepted submission whose analysis succeeds. *)
Lemma handleSubmit_succeeded_run (render : App.AppState) (w : App.World) (markdown : string)
    (b' : Browser) :
  accepted render = true ->
  GeminiService.analyzeContent env (App.request render) (App.browser w)
    = (Normal (success markdown), b') ->
  App.handleSubmit env render w
    = (Normal tt,
       {| App.app :=
            succeededState markdown
              (newHistoryItem env render (App.inputText render) markdown b'
               :: App.history render)
              (App.app w);
          App.browser :=
            persisted env
              (newHistoryItem env render (App.inputText render) markdown b'
               :: App.history render) b' |}).
Proof.
  intros Hacc Hrun.
  rewrite handleSubmit_uninterrupted, (accepted_guard render Hacc).
  unfold bind at 1 2 3 4, App.liftBrowser.
  cbn [App.setIsAnalyzing App.setError App.setResponseContent App.setApp modify
       App.app App.browser].
  rewrite Hrun.
  unfold App.handleSubmit_finish, bind, success, App.setIsAnalyzing, App.setResponseContent,
    App.setApp, modify.
  cbn [AnalysisResponse.error AnalysisResponse.markdown truthy_opt App.app App.browser].
  rewrite addToHistory_run. reflexivity.
Qed.

Lemma persisted_keeps_network (updated : list HistoryItem.t) (b : Browser) :
  network (persisted env updated b) = network b.
Proof. unfold persisted. now destruct (setItem_fails env _ _ _). Qed.

(** X7. A submission sends at most one request: exactly one when it is
    accepted and a credential is configured, none otherwise. *)
Theorem submission_sends_at_most_one_request (w : App.World) :
  network (App.browser (exec (App.submit env) w))
    = if accepted (App.app w) && truthy_opt (API_KEY env)
      then network (App.browser w) ++ [GeminiService.requestParameters (App.request (App.app w))]
      else network (App.browser w).
Proof.
  unfold exec, App.submit, App.dispatch.
  destruct (accepted (App.app w)) eqn:Hacc.
  - destruct (analyzeContent_shape (App.request (App.app w)) (App.browser w))
      as (response & b' & Hrun & _ & _ & Hnet & [(text & Htext & ->) | (msg & Hmsg & ->)]).
    + rewrite (handleSubmit_succeeded_run (App.app w) w text b' Hacc Hrun).
      cbn [snd App.browser]. now rewrite persisted_keeps_network.
    + rewrite (handleSubmit_failed_run (App.app w) w msg b' Hacc Hrun Hmsg). exact Hnet.
  - unfold accepted in Hacc. apply orb_false_elim in Hacc as [Htext Himage].
    now rewrite (handleSubmit_rejected env (App.app w) w Htext Himage).
Qed.

(** X8. After a successful submission, when the storage accepts the
    write, the storage holds under the key of the application the
    serialization of the history now in memory; the other keys are as
    they were. *)
Theorem successful_submission_persists_history (w : App.World) (apiKey markdown : string) :
  accepted (App.app w) = true ->
  API_KEY env = Some apiKey -> apiKey <> EmptyString ->
  answer env apiKey (App.request (App.app w)) (App.browser w)
    = Normal {| GenAI.text := Some markdown |} ->
  markdown <> EmptyString ->
  setItem_fails env (localStorage (App.browser w)) App.storageKey
    (JSON.stringify
       (newHistoryItem env (App.app w) (App.inputText (App.app w)) markdown (App.browser w)
        :: App.history (App.app w))) = None ->
  exists w',
    App.submit env w = (Normal tt, w') /\
    localStorage (App.browser w') !! App.storageKey
      = Some (JSON.stringify (App.history (App.app w'))) /\
    (forall key, key <> App.storageKey ->
       localStorage (App.browser w') !! key = localStorage (App.browser w) !! key) /\
    console (App.browser w') = console (App.browser w).
Proof.
  intros Hacc Hkey Htruthy Hanswer Hmarkdown Hstore.
  apply truthy_true_iff in Htruthy. apply truthy_true_iff in Hmarkdown.
  assert (Hrun : GeminiService.analyzeContent env (App.request (App.app w)) (App.browser w)
                 = (Normal (success markdown),
                    sent (GeminiService.requestParameters (App.request (App.app w)))
                      (App.browser w))).
  { rewrite (analyzeContent_with_key env _ _ apiKey Hkey Htruthy). cbv zeta.
    rewrite Hanswer. cbn [GenAI.text]. now rewrite Hmarkdown. }
  unfold App.submit, App.dispatch.
  rewrite (handleSubmit_succeeded_run (App.app w) w markdown _ Hacc Hrun).
  eexists. split; [reflexivity|].
  unfold persisted, newHistoryItem in *. cbn [sent localStorage clockReads console network] in *.
  rewrite Hstore. cbn. split; [apply lookup_insert_eq|]. split; [|reflexivity].
  intros key Hne. now apply lookup_insert_ne.
Qed.

End SubmissionOutcome.

Lemma successful_submission_persists_history_witness :
  exists w',
    App.submit Samples.envOk Samples.worldWithText = (Normal tt, w') /\
    localStorage (App.browser w') !! App.storageKey
      = Some (JSON.stringify (App.history (App.app w'))).
Proof.
  destruct (successful_submission_persists_history Samples.envOk Samples.worldWithText
              "key" "## Result") as (w' & Hrun & Hstored & _);
    [reflexivity | reflexivity | discriminate | reflexivity | discriminate | reflexivity |].
  exists w'. split; assumption.
Defined.

(* ===================================================================== *)
(** * The history: clearing and reloading                                 *)
(* ===================================================================== *)

Section HistoryOperations.

Variable env : Env.

Lemma clearHistory_run (w : App.World) :
  App.clearHistory env w =
    if window_confirm env confirmClear
    then (Normal tt,
          {| App.app := App.app (exec (App.setHistory []) w);
             App.browser :=
               {| localStorage := delete App.storageKey (localStorage (App.browser w));
                  console := console (App.browser w);
                  network := network (App.browser w);
                  clockReads := clockReads (App.browser w) |} |})
    else (Normal tt, w).
Proof.
  unfold App.clearHistory, confirmClear.
  destruct (window_confirm env _); reflexivity.
Qed.

(** X9. Clearing the history.  When the user confirms, the history in
    memory is empty and the saved history is removed from the storage,
    the other keys and the rest of the displayed state being kept; when
    the user declines, nothing changes.  In both cases clearing again gives
    the same state. *)
Theorem clearHistory_empties_memory_and_storage (w : App.World) :
  exists w',
    App.clearHistory env w = (Normal tt, w') /\
    (window_confirm env confirmClear = true ->
       App.history (App.app w') = [] /\
       localStorage (App.browser w') !! App.storageKey = None /\
       (forall key, key <> App.storageKey ->
          localStorage (App.browser w') !! key = localStorage (App.browser w) !! key) /\
       App.responseContent (App.app w') = App.responseContent (App.app w) /\
       App.inputText (App.app w') = App.inputText (App.app w) /\
       App.error (App.app w') = App.error (App.app w)) /\
    (window_confirm env confirmClear = false -> w' = w) /\
    App.clearHistory env w' = (Normal tt, w').
Proof.
  rewrite clearHistory_run.
  destruct (window_confirm env confirmClear) eqn:Hconfirm.
  - eexists. split; [reflexivity|]. split; [|split; [discriminate|]].
    + intros _. cbn. split; [reflexivity|]. split; [apply lookup_delete_eq|].
      split; [|repeat split]. intros key Hne. now apply lookup_delete_ne.
    + rewrite clearHistory_run, Hconfirm. cbn. now rewrite delete_delete_eq.
  - exists w. split; [reflexivity|]. split; [discriminate|]. split; [reflexivity|].
    now rewrite clearHistory_run, Hconfirm.
Qed.

(** X11. An item made with an image and no text cannot be run again
    from the history: loading it clears the image, so that the next
    submission is rejected by the guard, nothing is sent, and the
    response of the item stays displayed. *)
Theorem reloaded_image_only_item_is_rejected (item : HistoryItem.t) (w : App.World) :
  HistoryItem.hasImage item = true ->
  HistoryItem.inputText item = EmptyString ->
  exists w',
    App.submit env (exec (App.loadHistoryItem item) w) = (Normal tt, w') /\
    App.error (App.app w') = Some emptySubmission /\
    App.responseContent (App.app w') = HistoryItem.response item /\
    App.history (App.app w') = App.history (App.app w) /\
    App.browser w' = App.browser w.
Proof.
  intros Himage Htext.
  unfold exec. rewrite loadHistoryItem_run, Himage, Htext. cbn [snd].
  unfold App.submit, App.dispatch.
  rewrite handleSubmit_rejected by reflexivity.
  eexists. split; [reflexivity|]. repeat split.
Qed.

(** X12. An item made with an image and a text is run again without the
    image: after loading it, the request of the next submission has no
    image field, whatever image was selected before, and its content is
    the text segment alone, with the text and the mode of the item. *)
Theorem reloaded_item_is_resubmitted_without_image (item : HistoryItem.t) (w : App.World) :
  HistoryItem.hasImage item = true ->
  HistoryItem.inputText item <> EmptyString ->
  App.request (App.app (exec (App.loadHistoryItem item) w))
    = {| AnalysisRequest.text := HistoryItem.inputText item;
         AnalysisRequest.imageBase64 := None;
         AnalysisRequest.imageMimeType := None;
         AnalysisRequest.mode := HistoryItem.mode item |} /\
  GeminiService.buildParts (App.request (App.app (exec (App.loadHistoryItem item) w)))
    = [GenAI.Text (quotedEcho (HistoryItem.inputText item)
                   +:+ taskInstruction (HistoryItem.mode item))] /\
  accepted (App.app (exec (App.loadHistoryItem item) w)) = true.
Proof.
  intros Himage Htext. apply truthy_true_iff in Htext.
  unfold exec. rewrite loadHistoryItem_run, Himage. cbn [snd App.app].
  split; [reflexivity|]. split.
  - rewrite buildParts_spec. unfold imageSegment, textSegment, promptIntro, App.request.
    cbn. now rewrite Htext.
  - unfold accepted. cbn. now rewrite Htext.
Qed.

End HistoryOperations.

Lemma clearHistory_empties_memory_and_storage_witness :
  exists w',
    App.clearHistory Samples.envOk Scenarios.worldWithHistory = (Normal tt, w') /\
    App.history (App.app w') = [] /\
    localStorage (App.browser w') !! App.storageKey = None /\
    localStorage (App.browser w') !! "theme" = Some "dark".
Proof.
  destruct (clearHistory_empties_memory_and_storage Samples.envOk Scenarios.worldWithHistory)
    as (w' & Hrun & Hconfirmed & _).
  destruct Hconfirmed as (Hhistory & Hkey & Hothers & _); [reflexivity|].
  exists w'. split; [exact Hrun|]. split; [exact Hhistory|]. split; [exact Hkey|].
  rewrite Hothers by discriminate. reflexivity.
Defined.

Lemma reloaded_image_only_item_is_rejected_witness :
  exists w',
    App.submit Samples.envOk
      (exec (App.loadHistoryItem Scenarios.imageOnlyItem) Samples.worldWithImage)
      = (Normal tt, w') /\
    App.error (App.app w') = Some emptySubmission /\
    App.browser w' = Samples.browser0.
Proof.
  destruct (reloaded_image_only_item_is_rejected Samples.envOk Scenarios.imageOnlyItem
              Samples.worldWithImage) as (w' & Hrun & Herror & _ & _ & Hbrowser);
    [reflexivity | reflexivity |].
  exists w'. split; [exact Hrun|]. split; assumption.
Defined.

Lemma reloaded_item_is_resubmitted_without_image_witness :
  GeminiService.buildParts
    (App.request (App.app (exec (App.loadHistoryItem Scenarios.imageAndTextItem)
                             Samples.worldWithImage)))
  = [GenAI.Text (quotedEcho "How do I pay?" +:+ taskInstruction GUIDE)].
Proof.
  destruct (reloaded_item_is_resubmitted_without_image Scenarios.imageAndTextItem
              Samples.worldWithImage) as (_ & Hparts & _);
    [reflexivity | discriminate |].
  exact Hparts.
Defined.

(* ===================================================================== *)
(** * File selection                                                      *)
(* ===================================================================== *)

Section FileSelection.

Lemma includes_unit_append (c : ascii) (a b : string) :
  includes (String c EmptyString) (a +:+ b)
    = includes (String c EmptyString) a || includes (String c EmptyString) b.
Proof.
  induction a as [|d a IH].
  - rewrite append_empty_l. reflexivity.
  - rewrite append_cons, !includes_unit_cons, IH. now rewrite orb_assoc.
Qed.

Lemma selectFile_image_run (file : FileInput.File) (w : App.World) :
  startsWith "image/" (FileInput.type file) = true ->
  FileInput.selectFile (Some file) w
    = (App.setError None ;;
       App.setSelectedImage (FileInput.dataURL file) ;;
       App.setImageMimeType (Some (FileInput.type file))) w.
Proof.
  intros Htype. unfold FileInput.selectFile, FileInput.handleFileChange,
    FileInput.reader_onloadend. now rewrite Htype.
Qed.

(** X13. A file that is not an image is refused when it is picked: the
    error "Please select a valid image file." is shown, no read is
    started, and the image selected before, if any, stays selected. *)
Theorem non_image_file_is_refused (file : FileInput.File) (w : App.World) :
  startsWith "image/" (FileInput.type file) = false ->
  exists w',
    FileInput.handleFileChange (Some file) w = (Normal None, w') /\
    FileInput.selectFile (Some file) w = (Normal tt, w') /\
    App.error (App.app w') = Some invalidFile /\
    App.selectedImage (App.app w') = App.selectedImage (App.app w) /\
    App.imageMimeType (App.app w') = App.imageMimeType (App.app w) /\
    App.request (App.app w') = App.request (App.app w) /\
    App.browser w' = App.browser w.
Proof.
  intros Htype.
  unfold FileInput.selectFile, FileInput.handleFileChange. rewrite Htype.
  eexists. split; [reflexivity|]. repeat split.
Qed.

(** X14. An image that was picked and read is what the next request
    carries: when the read gives the data URL of the file, the inline
    image segment holds the base64 data of that URL, without its prefix,
    under the MIME type of the file; a previous error is cleared and the
    typed text is kept. *)
Theorem selected_image_is_sent_without_prefix (file : FileInput.File) (w : App.World)
    (data : string) :
  startsWith "image/" (FileInput.type file) = true ->
  includes "," (FileInput.type file) = false ->
  FileInput.dataURL file = Some ("data:" +:+ FileInput.type file +:+ ";base64," +:+ data) ->
  data <> EmptyString ->
  includes "," data = false ->
  exists w',
    FileInput.selectFile (Some file) w = (Normal tt, w') /\
    App.error (App.app w') = None /\
    App.inputText (App.app w') = App.inputText (App.app w) /\
    accepted (App.app w') = true /\
    GeminiService.buildParts (App.request (App.app w'))
      = [GenAI.InlineData (FileInput.type file) data; textSegment (App.request (App.app w))].
Proof.
  intros Htype Hcomma Hurl Hdata Hclean.
  rewrite (selectFile_image_run file w Htype).
  exists (snd ((App.setError None ;;
                App.setSelectedImage (FileInput.dataURL file) ;;
                App.setImageMimeType (Some (FileInput.type file))) w)).
  split; [reflexivity|]. split; [reflexivity|]. split; [reflexivity|].
  assert (Hmime : FileInput.type file <> EmptyString).
  { intros Hempty. rewrite Hempty in Htype. discriminate. }
  assert (Hrequest :
    App.request (App.app (snd ((App.setError None ;;
                                App.setSelectedImage (FileInput.dataURL file) ;;
                                App.setImageMimeType (Some (FileInput.type file))) w)))
    = {| AnalysisRequest.text := App.inputText (App.app w);
         AnalysisRequest.imageBase64 :=
           Some (("data:" +:+ FileInput.type file +:+ ";base64") +:+ "," +:+ data);
         AnalysisRequest.imageMimeType := Some (FileInput.type file);
         AnalysisRequest.mode := App.selectedMode (App.app w) |}).
  { unfold App.request, or_undefined. cbn. rewrite Hurl.
    apply truthy_true_iff in Hmime. cbn [truthy_opt]. rewrite Hmime.
    replace (truthy ("data:" +:+ FileInput.type file +:+ ";base64," +:+ data)) with true
      by reflexivity.
    now rewrite !append_assoc. }
  split.
  - unfold accepted. cbn. rewrite Hurl. apply orb_true_r.
  - rewrite Hrequest.
    rewrite (buildParts_data_url _ ("data:" +:+ FileInput.type file +:+ ";base64") data
               (FileInput.type file)); try reflexivity; try assumption.
    + apply truthy_true_iff in Hdata. now rewrite Hdata.
    + rewrite !includes_unit_append, Hcomma. reflexivity.
Qed.

(** X15. An image whose read fails leaves its MIME type selected without
    any payload; the next request carries no image segment, and the
    submission is accepted only if a text was typed. *)
Theorem unreadable_image_is_never_sent (file : FileInput.File) (w : App.World) :
  startsWith "image/" (FileInput.type file) = true ->
  FileInput.dataURL file = None ->
  exists w',
    FileInput.selectFile (Some file) w = (Normal tt, w') /\
    App.selectedImage (App.app w') = None /\
    App.imageMimeType (App.app w') = Some (FileInput.type file) /\
    accepted (App.app w') = truthy (App.inputText (App.app w)) /\
    GeminiService.buildParts (App.request (App.app w'))
      = [textSegment (App.request (App.app w))].
Proof.
  intros Htype Hurl.
  rewrite (selectFile_image_run file w Htype), Hurl.
  eexists. split; [reflexivity|]. split; [reflexivity|]. split; [reflexivity|].
  split.
  - unfold accepted. cbn. apply orb_false_r.
  - rewrite buildParts_spec, imageSegment_absent by (left; reflexivity). reflexivity.
Qed.

(** X16. Removing the selected image: the next request carries no image
    segment, and a submission without text is then rejected. *)
Theorem cleared_image_is_not_sent (w : App.World) :
  exists w',
    FileInput.handleClearImage w = (Normal tt, w') /\
    App.selectedImage (App.app w') = None /\
    App.imageMimeType (App.app w') = None /\
    App.inputText (App.app w') = App.inputText (App.app w) /\
    accepted (App.app w') = truthy (App.inputText (App.app w)) /\
    GeminiService.buildParts (App.request (App.app w'))
      = [textSegment (App.request (App.app w))].
Proof.
  eexists. split; [reflexivity|]. repeat split.
  - unfold accepted. cbn. apply orb_false_r.
  - rewrite buildParts_spec, imageSegment_absent by (left; reflexivity). reflexivity.
Qed.

End FileSelection.

Lemma non_image_file_is_refused_witness :
  exists w',
    FileInput.selectFile (Some Scenarios.pdfFile) Samples.worldWithImage = (Normal tt, w') /\
    App.error (App.app w') = Some invalidFile /\
    App.selectedImage (App.app w') = Some "data:image/png;base64,iVBORw0KGgo=".
Proof.
  destruct (non_image_file_is_refused Scenarios.pdfFile Samples.worldWithImage)
    as (w' & _ & Hrun & Herror & Himage & _); [reflexivity|].
  exists w'. split; [exact Hrun|]. split; [exact Herror|]. exact Himage.
Defined.

Lemma selected_image_is_sent_without_prefix_witness :
  exists w',
    FileInput.selectFile (Some Scenarios.pngFile) Samples.worldWithText = (Normal tt, w') /\
    GeminiService.buildParts (App.request (App.app w'))
      = [GenAI.InlineData "image/png" "iVBORw0KGgo=";
         GenAI.Text (quotedEcho "What is on this page?" +:+ taskInstruction DESCRIBE)].
Proof.
  destruct (selected_image_is_sent_without_prefix Scenarios.pngFile Samples.worldWithText
              "iVBORw0KGgo=") as (w' & Hrun & _ & _ & _ & Hparts);
    [reflexivity | reflexivity | reflexivity | discriminate | reflexivity |].
  exists w'. split; [exact Hrun | exact Hparts].
Defined.

Lemma unreadable_image_is_never_sent_witness :
  exists w',
    FileInput.selectFile (Some Scenarios.unreadableFile) Samples.worldWithText
      = (Normal tt, w') /\
    App.imageMimeType (App.app w') = Some "image/jpeg" /\
    GeminiService.buildParts (App.request (App.app w'))
      = [GenAI.Text (quotedEcho "What is on this page?" +:+ taskInstruction DESCRIBE)].
Proof.
  destruct (unreadable_image_is_never_sent Scenarios.unreadableFile Samples.worldWithText)
    as (w' & Hrun & _ & Hmime & _ & Hparts); [reflexivity | reflexivity |].
  exists w'. split; [exact Hrun|]. split; [exact Hmime | exact Hparts].
Defined.

(* ===================================================================== *)
(** * Voice dictation                                                     *)
(* ===================================================================== *)

Section Dictation.

Lemma fold_transcripts_none (l : list VoiceInput.SpeechRecognitionResult) (acc : string) :
  Forall (fun r => VoiceInput.isFinal r = false) l ->
  fold_left
    (fun acc result =>
       if VoiceInput.isFinal result then acc +:+ VoiceInput.transcript result else acc)
    l acc = acc.
Proof.
  intros Hall. revert acc.
  induction Hall as [|r l Hr _ IH]; intros acc; [reflexivity|].
  simpl. rewrite Hr. apply IH.
Qed.

Lemma onresult_run (event : VoiceInput.SpeechRecognitionEvent) (v : VoiceInput.VoiceWorld) :
  VoiceInput.onresult event v =
    (Normal tt,
     if truthy (VoiceInput.newTranscript event)
     then exec (VoiceInput.liftApp
                  (VoiceInput.updateInputText
                     (VoiceInput.appendTranscript (VoiceInput.newTranscript event)))) v
     else v).
Proof.
  unfold VoiceInput.onresult.
  destruct (truthy (VoiceInput.newTranscript event)); reflexivity.
Qed.

(** X17. Dictation only adds to the text: after a result event the
    input text is the text before followed by a suffix, which ends with
    the new transcript, and nothing else of the state changes.  An event
    that brings no final result from its index on (interim results only)
    changes nothing at all. *)
Theorem onresult_only_appends (event : VoiceInput.SpeechRecognitionEvent)
    (v : VoiceInput.VoiceWorld) :
  exists v' spacer,
    VoiceInput.onresult event v = (Normal tt, v') /\
    (spacer = EmptyString \/ spacer = " ") /\
    App.inputText (App.app (VoiceInput.world v'))
      = App.inputText (App.app (VoiceInput.world v))
        +:+ spacer +:+ VoiceInput.newTranscript event /\
    App.history (App.app (VoiceInput.world v')) = App.history (App.app (VoiceInput.world v)) /\
    App.selectedImage (App.app (VoiceInput.world v'))
      = App.selectedImage (App.app (VoiceInput.world v)) /\
    App.browser (VoiceInput.world v') = App.browser (VoiceInput.world v) /\
    VoiceInput.recognitionRef v' = VoiceInput.recognitionRef v /\
    (Forall (fun r => VoiceInput.isFinal r = false)
       (skipn (VoiceInput.resultIndex event) (VoiceInput.results event)) ->
     v' = v).
Proof.
  rewrite onresult_run.
  destruct (truthy (VoiceInput.newTranscript event)) eqn:Htruthy.
  - eexists _, (if truthy (App.inputText (App.app (VoiceInput.world v)))
                   && negb (VoiceInput.endsWithWhiteSpace
                              (App.inputText (App.app (VoiceInput.world v))))
                then " " else EmptyString).
    split; [reflexivity|]. split; [destruct (_ && _); auto|]. repeat split.
    intros Hinterim. unfold VoiceInput.newTranscript in Htruthy.
    now rewrite fold_transcripts_none in Htruthy.
  - apply truthy_false_iff in Htruthy. rewrite Htruthy.
    exists v, EmptyString. split; [reflexivity|]. split; [now left|].
    rewrite !append_empty_r. repeat split.
Qed.

Lemma endsWithWhiteSpace_false_append (s : string) :
  s <> EmptyString -> VoiceInput.endsWithWhiteSpace s = false ->
  truthy s && negb (VoiceInput.endsWithWhiteSpace s) = true.
Proof.
  intros Hs Hends. apply truthy_true_iff in Hs. now rewrite Hs, Hends.
Qed.

(** X18. Two dictated phrases are kept apart: starting from an empty
    text, a first phrase is entered as it is, without a leading space, and
    a second phrase is separated from it by exactly one space when the
    first does not end with a white space. *)
Theorem dictated_phrases_are_separated (first second : VoiceInput.SpeechRecognitionEvent)
    (v : VoiceInput.VoiceWorld) :
  App.inputText (App.app (VoiceInput.world v)) = EmptyString ->
  VoiceInput.newTranscript first <> EmptyString ->
  VoiceInput.endsWithWhiteSpace (VoiceInput.newTranscript first) = false ->
  VoiceInput.newTranscript second <> EmptyString ->
  App.inputText (App.app (VoiceInput.world (exec (VoiceInput.onresult first) v)))
    = VoiceInput.newTranscript first /\
  App.inputText
    (App.app (VoiceInput.world
       (exec (VoiceInput.onresult second) (exec (VoiceInput.onresult first) v))))
    = VoiceInput.newTranscript first +:+ " " +:+ VoiceInput.newTranscript second.
Proof.
  intros Hempty Hfirst Hends Hsecond.
  pose proof (endsWithWhiteSpace_false_append _ Hfirst Hends) as Hspacer.
  apply truthy_true_iff in Hfirst. apply truthy_true_iff in Hsecond.
  unfold exec. rewrite !onresult_run, Hfirst, Hsecond. cbn [snd].
  unfold exec, VoiceInput.liftApp, VoiceInput.updateInputText, App.setApp, modify,
    VoiceInput.appendTranscript.
  cbn [snd VoiceInput.world App.app App.inputText].
  rewrite Hempty. cbn [truthy andb]. rewrite !append_empty_l.
  split; [reflexivity|]. now rewrite Hspacer.
Qed.

(** X19. Starting and stopping dictation.  From a state that is not
    listening, in a browser that supports recognition, the toggle starts a
    continuous recognition of final results in American English; the
    session is listening once the recognition reports its start; the next
    toggle stops that recognition and the session is no longer listening.
    The text is the same throughout. *)
Theorem dictation_starts_and_stops (v : VoiceInput.VoiceWorld) :
  App.isListening (App.app (VoiceInput.world v)) = false ->
  exists v1 v2 v3,
    VoiceInput.dispatch (VoiceInput.toggleVoiceInput true) v = (Normal tt, v1) /\
    VoiceInput.onstart v1 = (Normal tt, v2) /\
    VoiceInput.dispatch (VoiceInput.toggleVoiceInput true) v2 = (Normal tt, v3) /\
    VoiceInput.recognitionRef v1 = Some (englishRecognition true) /\
    App.isListening (App.app (VoiceInput.world v1)) = false /\
    App.isListening (App.app (VoiceInput.world v2)) = true /\
    App.error (App.app (VoiceInput.world v2)) = None /\
    App.isListening (App.app (VoiceInput.world v3)) = false /\
    VoiceInput.recognitionRef v3 = Some (englishRecognition false) /\
    App.inputText (App.app (VoiceInput.world v3))
      = App.inputText (App.app (VoiceInput.world v)).
Proof.
  intros Hidle.
  unfold VoiceInput.dispatch at 1, VoiceInput.toggleVoiceInput at 1. rewrite Hidle. cbn [negb].
  eexists _, _, _. split; [reflexivity|]. split; [reflexivity|].
  split; [reflexivity|]. repeat split. exact Hidle.
Qed.

(** X20. In a browser without speech recognition the toggle only shows
    the message that voice input is not supported: the session does not
    listen, no recognition object is made, and the text is kept. *)
Theorem dictation_unsupported (v : VoiceInput.VoiceWorld) :
  App.isListening (App.app (VoiceInput.world v)) = false ->
  exists v',
    VoiceInput.dispatch (VoiceInput.toggleVoiceInput false) v = (Normal tt, v') /\
    App.error (App.app (VoiceInput.world v')) = Some voiceUnsupported /\
    App.isListening (App.app (VoiceInput.world v')) = false /\
    VoiceInput.recognitionRef v' = VoiceInput.recognitionRef v /\
    App.inputText (App.app (VoiceInput.world v'))
      = App.inputText (App.app (VoiceInput.world v)).
Proof.
  intros Hidle.
  unfold VoiceInput.dispatch, VoiceInput.toggleVoiceInput. rewrite Hidle. cbn [negb].
  eexists. split; [reflexivity|]. cbn. rewrite Hidle. repeat split.
Qed.

(** X21. A recognition error always ends the listening state and is
    written on the console.  The code "no-speech" shows no message and
    keeps the error slot as it is; every other code shows a non-empty
    message, which names the code unless it is "not-allowed".  The text
    is kept. *)
Theorem recognition_error_ends_listening (code : string) (v : VoiceInput.VoiceWorld) :
  exists v',
    VoiceInput.onerror code v = (Normal tt, v') /\
    App.isListening (App.app (VoiceInput.world v')) = false /\
    VoiceInput.speechErrors v'
      = VoiceInput.speechErrors v ++ [("Speech recognition error", code)] /\
    App.inputText (App.app (VoiceInput.world v'))
      = App.inputText (App.app (VoiceInput.world v)) /\
    (code = "no-speech" ->
       App.error (App.app (VoiceInput.world v')) = App.error (App.app (VoiceInput.world v))) /\
    (code = "not-allowed" ->
       App.error (App.app (VoiceInput.world v'))
         = Some "Microphone access was denied. Please allow microphone access to use voice input.") /\
    (code <> "no-speech" -> code <> "not-allowed" ->
       App.error (App.app (VoiceInput.world v')) = Some ("Voice input error: " +:+ code)).
Proof.
  unfold VoiceInput.onerror.
  destruct (String.eqb code "not-allowed") eqn:Hdenied.
  - apply String.eqb_eq in Hdenied. subst code.
    eexists. split; [reflexivity|]. repeat split; intros; congruence.
  - destruct (String.eqb code "no-speech") eqn:Hsilent.
    + apply String.eqb_eq in Hsilent. subst code.
      eexists. split; [reflexivity|]. repeat split; intros; congruence.
    + apply String.eqb_neq in Hdenied. apply String.eqb_neq in Hsilent.
      eexists. split; [reflexivity|]. repeat split; intros; congruence.
Qed.

End Dictation.

Lemma onresult_only_appends_witness :
  App.inputText
    (App.app (VoiceInput.world
       (exec (VoiceInput.onresult Scenarios.interimDictation)
          (Scenarios.voiceWorld Samples.worldWithText))))
  = "What is on this page?".
Proof.
  destruct (onresult_only_appends Scenarios.interimDictation
              (Scenarios.voiceWorld Samples.worldWithText))
    as (v' & spacer & Hrun & _ & _ & _ & _ & _ & _ & Hinterim).
  unfold exec. rewrite Hrun. cbn [snd]. rewrite Hinterim; [reflexivity|].
  repeat constructor.
Defined.

Lemma dictated_phrases_are_separated_witness :
  App.inputText
    (App.app (VoiceInput.world
       (exec (VoiceInput.onresult Scenarios.dictation)
          (exec (VoiceInput.onresult
                   {| VoiceInput.resultIndex := 0;
                      VoiceInput.results :=
                        [ {| VoiceInput.isFinal := true;
                             VoiceInput.transcript := "What is" |} ] |})
             (Scenarios.voiceWorld Samples.world0)))))
  = "What is in the second column".
Proof.
  destruct (dictated_phrases_are_separated
              {| VoiceInput.resultIndex := 0;
                 VoiceInput.results :=
                   [ {| VoiceInput.isFinal := true; VoiceInput.transcript := "What is" |} ] |}
              Scenarios.dictation (Scenarios.voiceWorld Samples.world0))
    as (_ & Hboth); [reflexivity | discriminate | reflexivity | discriminate |].
  rewrite Hboth. reflexivity.
Defined.

Lemma dictation_starts_and_stops_witness :
  exists v1 v2 v3,
    VoiceInput.dispatch (VoiceInput.toggleVoiceInput true)
      (Scenarios.voiceWorld Samples.worldWithText) = (Normal tt, v1) /\
    VoiceInput.onstart v1 = (Normal tt, v2) /\
    VoiceInput.dispatch (VoiceInput.toggleVoiceInput true) v2 = (Normal tt, v3) /\
    App.isListening (App.app (VoiceInput.world v2)) = true /\
    App.isListening (App.app (VoiceInput.world v3)) = false.
Proof.
  destruct (dictation_starts_and_stops (Scenarios.voiceWorld Samples.worldWithText))
    as (v1 & v2 & v3 & H1 & H2 & H3 & _ & _ & Hon & _ & Hoff & _); [reflexivity|].
  exists v1, v2, v3. repeat split; assumption.
Defined.

Lemma dictation_unsupported_witness :
  exists v',
    VoiceInput.dispatch (VoiceInput.toggleVoiceInput false)
      (Scenarios.voiceWorld Samples.world0) = (Normal tt, v') /\
    App.error (App.app (VoiceInput.world v')) = Some voiceUnsupported /\
    VoiceInput.recognitionRef v' = None.
Proof.
  destruct (dictation_unsupported (Scenarios.voiceWorld Samples.world0))
    as (v' & Hrun & Herror & _ & Href & _); [reflexivity|].
  exists v'. split; [exact Hrun|]. split; [exact Herror | exact Href].
Defined.

(* ===================================================================== *)
(** * Read-aloud                                                          *)
(* ===================================================================== *)

Section ReadAloudFacts.

(** X22. Pressing the read-aloud button twice.  From a silent state the
    first press marks the component as speaking and hands the whole
    response to the speech synthesis; the second press cancels every
    utterance and the component is silent again, its feedback untouched. *)
Theorem handleSpeak_twice_is_silent (content : string) (d : ReadAloud.DisplayWorld) :
  ReadAloud.isSpeaking (ReadAloud.display d) = false ->
  exists d1 d2,
    ReadAloud.dispatch (ReadAloud.handleSpeak content) d = (Normal tt, d1) /\
    ReadAloud.dispatch (ReadAloud.handleSpeak content) d1 = (Normal tt, d2) /\
    ReadAloud.isSpeaking (ReadAloud.display d1) = true /\
    ReadAloud.utterances d1 = ReadAloud.utterances d ++ [content] /\
    ReadAloud.isSpeaking (ReadAloud.display d2) = false /\
    ReadAloud.utterances d2 = [] /\
    ReadAloud.feedback (ReadAloud.display d2) = ReadAloud.feedback (ReadAloud.display d).
Proof.
  intros Hsilent.
  unfold ReadAloud.dispatch at 1, ReadAloud.handleSpeak at 1. rewrite Hsilent.
  eexists _, _. split; [reflexivity|]. split; [reflexivity|]. repeat split.
Qed.

End ReadAloudFacts.

Lemma handleSpeak_twice_is_silent_witness :
  exists d1 d2,
    ReadAloud.dispatch (ReadAloud.handleSpeak "## Result") Scenarios.silentDisplay
      = (Normal tt, d1) /\
    ReadAloud.dispatch (ReadAloud.handleSpeak "## Result") d1 = (Normal tt, d2) /\
    ReadAloud.utterances d1 = ["## Result"] /\
    d2 = Scenarios.silentDisplay.
Proof.
  destruct (handleSpeak_twice_is_silent "## Result" Scenarios.silentDisplay)
    as (d1 & d2 & H1 & H2 & _ & Hqueue & Hsilent & Hempty & Hfeedback); [reflexivity|].
  exists d1, d2. split; [exact H1|]. split; [exact H2|]. split; [exact Hqueue|].
  destruct d2 as [[speaking feedback] queue]. cbn in *. now subst.
Defined.

(* ===================================================================== *)
(** * The response renderer: lines, headings, bullets and blank lines     *)
(* ===================================================================== *)

Section RenderedLines.

Lemma split_go_unit_length (c : ascii) (s : string) :
  forall cur, length (split_go (String c EmptyString) 0 cur s) = S (countUnit c s).
Proof.
  induction s as [|d s IH]; intros cur; [reflexivity|].
  change (split_go (String c EmptyString) 0 cur (String d s))
    with (if startsWith (String c EmptyString) (String d s)
          then cur :: split_go (String c EmptyString) 0 EmptyString s
          else split_go (String c EmptyString) 0 (cur +:+ String d EmptyString) s).
  rewrite startsWith_cons. cbn [countUnit startsWith].
  destruct (Ascii.eqb c d); cbn [length]; now rewrite IH.
Qed.

Lemma renderLine_key (line : string) (index : nat) :
  nodeKey (OutputDisplay.renderLine line index) = Some index.
Proof.
  unfold OutputDisplay.renderLine.
  repeat match goal with |- context [if ?c then _ else _] => destruct c end; reflexivity.
Qed.

(** X23. One element per line: a text with [n] line feeds is rendered
    as [n + 1] elements, and the element at position [i] has the key [i]. *)
Theorem renderContent_one_element_per_line (text : string) :
  length (OutputDisplay.renderContent text) = S (countUnit "010"%char text) /\
  (forall i node,
     OutputDisplay.renderContent text !! i = Some node -> nodeKey node = Some i).
Proof.
  unfold OutputDisplay.renderContent. cbv zeta. split.
  - rewrite length_imap. apply split_go_unit_length.
  - intros i node. rewrite list_lookup_imap.
    destruct (split LF text !! i) as [line|]; [|discriminate].
    intros [= <-]. apply renderLine_key.
Qed.

Lemma trimEnd_cons_nonws (c : ascii) (s : string) :
  isWhiteSpace c = false -> trimEnd (String c s) = String c (trimEnd s).
Proof. intros Hc. simpl. rewrite Hc. now destruct (trimEnd s). Qed.

Lemma trimEnd_cons_nonempty (c : ascii) (s : string) :
  trimEnd s <> EmptyString -> trimEnd (String c s) = String c (trimEnd s).
Proof. intros Hs. simpl. now destruct (trimEnd s). Qed.

Lemma trimEnd_allWhiteSpace (s : string) :
  trimEnd s = EmptyString <-> allWhiteSpace s = true.
Proof.
  induction s as [|c s IH]; [easy|].
  simpl. destruct (trimEnd s) eqn:Hend.
  - destruct (isWhiteSpace c); simpl; [tauto|]. split; discriminate.
  - split; [discriminate|]. intros Hall. apply andb_true_iff in Hall as [_ Hall].
    apply IH in Hall. discriminate.
Qed.

Lemma trimStart_allWhiteSpace (indent s : string) :
  allWhiteSpace indent = true -> trimStart (indent +:+ s) = trimStart s.
Proof.
  induction indent as [|c indent IH]; [reflexivity|].
  intros Hall. simpl in Hall. apply andb_true_iff in Hall as [Hc Hall].
  rewrite append_cons. simpl. now rewrite Hc, IH.
Qed.

Lemma trim_allWhiteSpace (s : string) :
  allWhiteSpace s = true -> trim s = EmptyString.
Proof.
  intros Hall. unfold trim.
  rewrite <- (append_empty_r s), (trimStart_allWhiteSpace _ _ Hall). reflexivity.
Qed.

Lemma whiteSpace_is_no_star (c : ascii) :
  isWhiteSpace c = true -> Ascii.eqb "*" c = false.
Proof. intros Hc. destruct (Ascii.eqb_spec "*" c) as [<-|]; [discriminate | reflexivity]. Qed.

Lemma allWhiteSpace_no_delimiter (s : string) :
  allWhiteSpace s = true -> includes "**" s = false.
Proof.
  induction s as [|c s IH]; [reflexivity|].
  intros Hall. simpl in Hall. apply andb_true_iff in Hall as [Hc Hall].
  rewrite includes_cons, startsWith_cons, (whiteSpace_is_no_star c Hc), (IH Hall).
  reflexivity.
Qed.

(** X24. A line that starts with the marker of a heading is a heading
    whatever follows the marker: its text is the rest of the line as it
    is, stars, hyphens and further markers included.  Only one and two
    hashes are markers: a line that starts with three hashes is an ordinary
    paragraph that shows them. *)
Theorem renderLine_headings (t : string) (index : nat) :
  OutputDisplay.renderLine ("## " +:+ t) index = subHeading index t /\
  OutputDisplay.renderLine ("# " +:+ t) index = heading index t /\
  (includes "**" t = false ->
   OutputDisplay.renderLine ("###" +:+ t) index = paragraph index [plain ("###" +:+ t)]).
Proof.
  split; [reflexivity|]. split; [reflexivity|].
  intros Hbold. unfold OutputDisplay.renderLine, trim.
  change ("###" +:+ t) with (String "#" (String "#" (String "#" t))).
  assert (Hstart : trimStart (String "#" (String "#" (String "#" t)))
                   = String "#" (String "#" (String "#" t))) by reflexivity.
  rewrite Hstart, (trimEnd_cons_nonws "#") by reflexivity.
  rewrite !includes_cons, Hbold. reflexivity.
Qed.

(** X25. A line made of white space only, the empty line included, is
    rendered as a spacer. *)
Theorem renderLine_blank (line : string) (index : nat) :
  allWhiteSpace line = true ->
  OutputDisplay.renderLine line index = spacer index.
Proof.
  intros Hall. unfold OutputDisplay.renderLine.
  rewrite (trim_allWhiteSpace line Hall), (allWhiteSpace_no_delimiter line Hall).
  destruct line as [|c line]; [reflexivity|].
  simpl in Hall. apply andb_true_iff in Hall as [Hc _].
  assert (Hhash : Ascii.eqb "#" c = false).
  { destruct (Ascii.eqb_spec "#" c) as [<-|]; [discriminate | reflexivity]. }
  rewrite !startsWith_cons, Hhash. reflexivity.
Qed.

(** X26. A line made of a star or a hyphen, a space and a text is a
    bullet item whose text is what follows the marker, without the white
    space in front of it, and with any further markup left as it is.  When
    nothing but white space follows the marker the line is not a bullet
    item: it is a plain paragraph that shows the marker. *)
Theorem renderLine_bullet (marker : ascii) (t : string) (index : nat) :
  marker = "*"%char \/ marker = "-"%char ->
  OutputDisplay.renderLine (String marker (" " +:+ t)) index
    = if allWhiteSpace t
      then paragraph index [plain (String marker (" " +:+ t))]
      else bulletItem index (trimStart t).
Proof.
  intros Hmarker.
  assert (Hnonws : isWhiteSpace marker = false) by (destruct Hmarker; subst; reflexivity).
  unfold OutputDisplay.renderLine, trim.
  change (" " +:+ t) with (String " " t).
  assert (Hh3 : startsWith "## " (String marker (String " " t)) = false)
    by (destruct Hmarker; subst; reflexivity).
  assert (Hh2 : startsWith "# " (String marker (String " " t)) = false)
    by (destruct Hmarker; subst; reflexivity).
  assert (Hstart : trimStart (String marker (String " " t)) = String marker (String " " t))
    by (simpl; now rewrite Hnonws).
  rewrite Hh3, Hh2, Hstart, (trimEnd_cons_nonws _ _ Hnonws).
  destruct (allWhiteSpace t) eqn:Hall.
  - assert (Hend : trimEnd (String " " t) = EmptyString).
    { apply trimEnd_allWhiteSpace. simpl. exact Hall. }
    rewrite Hend.
    assert (Hbold : includes "**" (String marker (String " " t)) = false).
    { rewrite includes_cons, includes_cons, (allWhiteSpace_no_delimiter t Hall).
      destruct Hmarker; subst; reflexivity. }
    rewrite Hbold. destruct Hmarker; subst; reflexivity.
  - assert (Hend : trimEnd t <> EmptyString).
    { intros Hempty. apply trimEnd_allWhiteSpace in Hempty. congruence. }
    rewrite (trimEnd_cons_nonempty _ _ Hend).
    destruct Hmarker; subst; reflexivity.
Qed.

(** X27. An indented bullet keeps its marker: when white space comes
    before the star or the hyphen, the line is still a bullet item, but its
    text is the whole line, indentation and marker included. *)
Theorem renderLine_indented_bullet (indent : string) (marker : ascii) (t : string)
    (index : nat) :
  indent <> EmptyString -> allWhiteSpace indent = true ->
  marker = "*"%char \/ marker = "-"%char ->
  allWhiteSpace t = false ->
  OutputDisplay.renderLine (indent +:+ String marker (" " +:+ t)) index
    = bulletItem index (indent +:+ String marker (" " +:+ t)).
Proof.
  intros Hindent Hall Hmarker Ht.
  assert (Hnonws : isWhiteSpace marker = false) by (destruct Hmarker; subst; reflexivity).
  assert (Hend : trimEnd t <> EmptyString).
  { intros Hempty. apply trimEnd_allWhiteSpace in Hempty. congruence. }
  unfold OutputDisplay.renderLine, trim.
  rewrite (trimStart_allWhiteSpace _ _ Hall).
  change (" " +:+ t) with (String " " t).
  assert (Hstart : trimStart (String marker (String " " t)) = String marker (String " " t))
    by (simpl; now rewrite Hnonws).
  rewrite Hstart, (trimEnd_cons_nonws _ _ Hnonws), (trimEnd_cons_nonempty _ _ Hend).
  destruct indent as [|w indent]; [congruence|].
  simpl in Hall. apply andb_true_iff in Hall as [Hw _].
  rewrite append_cons.
  assert (Hhash : Ascii.eqb "#" w = false).
  { destruct (Ascii.eqb_spec "#" w) as [<-|]; [discriminate | reflexivity]. }
  assert (Hstar : Ascii.eqb w "*" = false).
  { destruct (Ascii.eqb_spec w "*") as [->|]; [discriminate | reflexivity]. }
  assert (Hdash : Ascii.eqb w "-" = false).
  { destruct (Ascii.eqb_spec w "-") as [->|]; [discriminate | reflexivity]. }
  assert (Hbullet : startsWith "* " (String marker (String " " (trimEnd t)))
                    || startsWith "- " (String marker (String " " (trimEnd t))) = true)
    by (destruct Hmarker; subst; reflexivity).
  rewrite Hbullet, !startsWith_cons, Hhash.
  unfold bulletItem, OutputDisplay.replaceBulletMarker.
  destruct (indent +:+ String marker (String " " t)) as [|x rest];
    [reflexivity | now rewrite Hstar, Hdash].
Qed.

(** X28. A single delimiter makes the rest of the line bold: a line
    [a**b] with no other delimiter, which is neither a heading nor a bullet
    line, is a paragraph of the plain run [a] and the bold run [b]. *)
Theorem renderLine_unmatched_delimiter (a b : string) (index : nat) :
  includes "**" (a +:+ "*") = false ->
  includes "**" b = false ->
  startsWith "## " (a +:+ "**" +:+ b) = false ->
  startsWith "# " (a +:+ "**" +:+ b) = false ->
  startsWith "* " (trim (a +:+ "**" +:+ b)) = false ->
  startsWith "- " (trim (a +:+ "**" +:+ b)) = false ->
  OutputDisplay.renderLine (a +:+ "**" +:+ b) index = paragraph index [plain a; bold 1 b].
Proof.
  intros Ha Hb Hh3 Hh2 Hstar Hdash.
  assert (Hsplit : split "**" (a +:+ "**" +:+ b) = [a; b]).
  { unfold split. now rewrite (split_one_delimiter _ _ _ Ha), (split_no_delimiter _ _ Hb). }
  assert (Hbold : includes "**" (a +:+ "**" +:+ b) = true).
  { clear. induction a as [|c a IH]; [reflexivity|].
    rewrite append_cons, includes_cons, IH. apply orb_true_r. }
  unfold OutputDisplay.renderLine.
  now rewrite Hh3, Hh2, Hstar, Hdash, Hbold, Hsplit.
Qed.

End RenderedLines.

Lemma renderLine_blank_witness :
  OutputDisplay.renderLine "   " 7 = spacer 7.
Proof. apply (renderLine_blank "   " 7). reflexivity. Defined.

Lemma renderLine_bullet_witness :
  OutputDisplay.renderLine "-   **Save** the form" 2 = bulletItem 2 "**Save** the form" /\
  OutputDisplay.renderLine "*  " 3 = paragraph 3 [plain "*  "].
Proof.
  split.
  - apply (renderLine_bullet "-" "  **Save** the form" 2). now right.
  - apply (renderLine_bullet "*" " " 3). now left.
Defined.

Lemma renderLine_indented_bullet_witness :
  OutputDisplay.renderLine "  * Nested point" 5 = bulletItem 5 "  * Nested point".
Proof.
  apply (renderLine_indented_bullet "  " "*" "Nested point" 5);
    [discriminate | reflexivity | now left | reflexivity].
Defined.

Lemma renderLine_unmatched_delimiter_witness :
  OutputDisplay.renderLine "Note: **keep this in mind" 0
    = paragraph 0 [plain "Note: "; bold 1 "keep this in mind"].
Proof.
  apply (renderLine_unmatched_delimiter "Note: " "keep this in mind" 0); reflexivity.
Defined.

(* ===================================================================== *)
(** * The response renderer: nothing is lost, no delimiter is shown       *)
(* ===================================================================== *)

Section SplitPieces.

Variable c : ascii.
Variable sep' : string.

Local Abbreviation sep := (String c sep').

Lemma startsWith_monotone (p a t : string) :
  startsWith p a = true -> startsWith p (a +:+ t) = true.
Proof.
  revert a. induction p as [|x p IH]; intros a Hstart; [reflexivity|].
  destruct a as [|y a]; [discriminate|].
  rewrite append_cons. rewrite startsWith_cons in *.
  destruct (Ascii.eqb x y); [now apply IH | discriminate].
Qed.

Lemma startsWith_decompose (p s : string) :
  startsWith p s = true -> s = p +:+ drop (String.length p) s.
Proof.
  revert s. induction p as [|x p IH]; intros s Hstart; [reflexivity|].
  destruct s as [|y s]; [discriminate|].
  rewrite startsWith_cons in Hstart.
  destruct (Ascii.eqb_spec x y) as [->|]; [|discriminate].
  rewrite append_cons. cbn [String.length drop]. f_equal. now apply IH.
Qed.

Lemma length_append (a b : string) :
  String.length (a +:+ b) = String.length a + String.length b.
Proof.
  induction a as [|x a IH]; [reflexivity|].
  rewrite append_cons. cbn [String.length]. now rewrite IH.
Qed.

Lemma drop_length (n : nat) (s : string) : String.length (drop n s) <= String.length s.
Proof.
  revert s. induction n as [|n IH]; intros s; [reflexivity|].
  destruct s as [|y s]; [reflexivity|]. cbn [drop String.length]. specialize (IH s). lia.
Qed.

Lemma split_go_start (cur : string) (d : ascii) (s : string) :
  split_go sep 0 cur (String d s)
    = if startsWith sep (String d s)
      then cur :: split_go sep (String.length sep') EmptyString s
      else split_go sep 0 (cur +:+ String d EmptyString) s.
Proof. reflexivity. Qed.

Lemma split_go_nonempty (s : string) :
  forall k cur, split_go sep k cur s <> [].
Proof.
  induction s as [|d s IH]; intros k cur; [discriminate|].
  destruct k as [|k]; [|apply IH].
  rewrite split_go_start. destruct (startsWith sep (String d s)); [discriminate | apply IH].
Qed.

Lemma join_cons (x : string) (l : list string) :
  l <> [] -> join sep (x :: l) = x +:+ sep +:+ join sep l.
Proof. destruct l; [congruence | reflexivity]. Qed.

(** Joining the pieces with the separator gives the string back. *)
Lemma split_go_join (n : nat) :
  forall s cur, String.length s <= n -> join sep (split_go sep 0 cur s) = cur +:+ s.
Proof.
  induction n as [|n IH]; intros s cur Hlen.
  - destruct s; [cbn; now rewrite append_empty_r | cbn in Hlen; lia].
  - destruct s as [|d s]; [cbn; now rewrite append_empty_r|].
    destruct (startsWith sep (String d s)) eqn:Hstart.
    + pose proof (startsWith_decompose _ _ Hstart) as Hs.
      pose proof (drop_length (String.length sep) (String d s)) as Hdrop.
      set (rest := drop (String.length sep) (String d s)) in *. clearbody rest.
      rewrite Hs, split_go_hit, join_cons by apply split_go_nonempty.
      rewrite IH, append_empty_l; [reflexivity|].
      apply (f_equal String.length) in Hs.
      rewrite length_append in Hs. cbn [String.length] in Hs, Hlen. lia.
    + rewrite split_go_start, Hstart, IH by (cbn in Hlen; lia).
      now rewrite append_assoc.
Qed.

Lemma occursWithin_snoc (a : string) (d : ascii) (t : string) :
  occursWithin sep (a +:+ String d EmptyString) t
    = occursWithin sep a (String d t) || startsWith sep (String d t).
Proof.
  induction a as [|x a IH].
  - rewrite append_empty_l, occursWithin_cons. cbn [occursWithin].
    now rewrite orb_false_r, orb_false_l.
  - rewrite append_cons, !occursWithin_cons, IH, append_cons, append_assoc, <- orb_assoc.
    reflexivity.
Qed.

Lemma occursWithin_includes (a t : string) :
  occursWithin sep a t = false -> includes sep a = false.
Proof.
  induction a as [|x a IH]; [reflexivity|].
  rewrite occursWithin_cons, includes_cons. intros Hocc.
  apply orb_false_elim in Hocc as [Hhere Hlater].
  rewrite (IH Hlater), orb_false_r.
  destruct (startsWith sep (String x a)) eqn:Hstart; [|reflexivity].
  now rewrite (startsWith_monotone _ _ t Hstart) in Hhere.
Qed.

(** No piece contains the separator. *)
Lemma split_go_pieces (s : string) :
  forall k cur,
    (k = 0 -> occursWithin sep cur s = false) ->
    (k <> 0 -> cur = EmptyString) ->
    Forall (fun piece => includes sep piece = false) (split_go sep k cur s).
Proof.
  induction s as [|d s IH]; intros k cur Hzero Hskip.
  - constructor; [|constructor].
    destruct k as [|k]; [|now rewrite Hskip].
    apply (occursWithin_includes cur EmptyString). now apply Hzero.
  - destruct k as [|k].
    + specialize (Hzero eq_refl). rewrite split_go_start.
      destruct (startsWith sep (String d s)) eqn:Hstart.
      * constructor; [now apply (occursWithin_includes cur (String d s))|].
        apply IH; [reflexivity | reflexivity].
      * apply IH; [|congruence]. intros _.
        now rewrite occursWithin_snoc, Hzero, Hstart.
    + cbn [split_go]. apply IH; [|intros _; now apply Hskip].
      intros _. now rewrite Hskip.
Qed.

End SplitPieces.

Section NothingLost.

Lemma runText_boldRun (i : nat) (part : string) :
  runText (OutputDisplay.boldRun i part) = part.
Proof. unfold OutputDisplay.boldRun. now destruct (i mod 2 =? 1). Qed.

(** X29. The renderer loses nothing: the lines it renders, joined by
    line feeds, are the text, and the runs of a bold paragraph, joined by
    the delimiter, are the line. *)
Theorem rendering_loses_nothing (text : string) :
  join LF (split LF text) = text /\
  join "**" (map runText (imap OutputDisplay.boldRun (split "**" text))) = text.
Proof.
  split.
  - unfold split, LF. now rewrite (split_go_join _ _ (String.length text)), append_empty_l.
  - assert (Hruns : forall l : list string,
              map runText (imap OutputDisplay.boldRun l) = l).
    { assert (Hany : forall (l : list string) (f : nat -> string -> OutputDisplay.Node),
                (forall i part, runText (f i part) = part) -> map runText (imap f l) = l).
      { induction l as [|part l IH]; intros f Hf; [reflexivity|].
        cbn [imap map]. rewrite Hf. f_equal. apply IH. intros i x. apply Hf. }
      intros l. apply Hany, runText_boldRun. }
    rewrite Hruns. unfold split.
    now rewrite (split_go_join _ _ (String.length text)), append_empty_l.
Qed.

(** X30. No delimiter is ever displayed by a bold paragraph, and no
    rendered line holds a line feed: the pieces of a split do not contain
    the separator. *)
Theorem pieces_do_not_contain_the_separator (text : string) :
  (forall i node,
     imap OutputDisplay.boldRun (split "**" text) !! i = Some node ->
     includes "**" (runText node) = false) /\
  (forall i line, split LF text !! i = Some line -> includes LF line = false).
Proof.
  split.
  - intros i node. rewrite list_lookup_imap.
    destruct (split "**" text !! i) as [part|] eqn:Hpart; [|discriminate].
    intros [= <-]. rewrite runText_boldRun.
    pose proof (split_go_pieces "*" "*" text 0 EmptyString) as Hall.
    rewrite Forall_lookup in Hall. apply (Hall ltac:(reflexivity) ltac:(congruence) i part).
    exact Hpart.
  - intros i line Hline.
    pose proof (split_go_pieces "010" EmptyString text 0 EmptyString) as Hall.
    rewrite Forall_lookup in Hall. apply (Hall ltac:(reflexivity) ltac:(congruence) i line).
    exact Hline.
Qed.

End NothingLost.

(* ===================================================================== *)
(** * Submissions that overlap other events                               *)
(* ===================================================================== *)

Section Resumption.

Variable env : Env.

(** The second part of [analyzeContent], in one equation. *)
Lemma analyzeContent_resume_run (answer : Completion GenAI.GenerateContentResponse)
    (b : Browser) :
  GeminiService.analyzeContent_resume answer b =
    (Normal (responseTo answer),
     match answer with
     | Normal r =>
         match GenAI.text r with
         | Some text => if truthy text then b else logged apiErrorLabel (Error noResponse) b
         | None => logged apiErrorLabel (Error noResponse) b
         end
     | Throw e => logged apiErrorLabel e b
     end).
Proof.
  unfold GeminiService.analyzeContent_resume, GeminiService.awaited,
    GeminiService.catchBlock, responseTo, try_catch, bind.
  destruct answer as [r|e]; [|reflexivity].
  destruct (GenAI.text r) as [text|]; [|reflexivity].
  destruct (truthy text); reflexivity.
Qed.


(** The second part of a submission when the answer is a text. *)
Lemma handleSubmit_resume_succeeded (render : App.AppState) (w : App.World)
    (r : GenAI.GenerateContentResponse) (markdown : string) :
  GenAI.text r = Some markdown -> truthy markdown = true ->
  App.handleSubmit_resume env render (Normal r) w =
    (Normal tt,
     {| App.app :=
          resumedWithAnswer markdown
            (newHistoryItem env render (App.inputText render) markdown (App.browser w)
             :: App.history render)
            (App.app w);
        App.browser :=
          persisted env
            (newHistoryItem env render (App.inputText render) markdown (App.browser w)
             :: App.history render)
            (App.browser w) |}).
Proof.
  intros Htext Htruthy.
  unfold App.handleSubmit_resume, bind at 1, App.liftBrowser.
  rewrite analyzeContent_resume_run. unfold responseTo. rewrite Htext, Htruthy.
  unfold App.handleSubmit_finish, bind, success, App.setIsAnalyzing, App.setResponseContent,
    App.setApp, modify.
  cbn [AnalysisResponse.error AnalysisResponse.markdown truthy_opt App.app App.browser].
  rewrite addToHistory_run. reflexivity.
Qed.

(** The second part of a submission when the answer is not a text. *)
Lemma handleSubmit_resume_failed (render : App.AppState) (w : App.World)
    (answer : Completion GenAI.GenerateContentResponse) (msg : string) :
  responseTo answer = failure msg -> msg <> EmptyString ->
  exists e,
    App.handleSubmit_resume env render answer w =
      (Normal tt,
       {| App.app := resumedWithError msg (App.app w);
          App.browser := logged apiErrorLabel e (App.browser w) |}).
Proof.
  intros Hresponse Hmsg. apply truthy_true_iff in Hmsg.
  unfold App.handleSubmit_resume, bind at 1, App.liftBrowser.
  rewrite analyzeContent_resume_run, Hresponse.
  unfold App.handleSubmit_finish, bind, failure, App.setIsAnalyzing, App.setError,
    App.setApp, modify.
  cbn [AnalysisResponse.error AnalysisResponse.markdown truthy_opt App.app App.browser].
  rewrite Hmsg.
  destruct answer as [r|e].
  - exists (Error noResponse).
    unfold responseTo in Hresponse.
    destruct (GenAI.text r) as [text|]; [|reflexivity].
    destruct (truthy text); [discriminate | reflexivity].
  - exists e. reflexivity.
Qed.

Lemma responseTo_cases (answer : Completion GenAI.GenerateContentResponse) :
  (exists r markdown,
     answer = Normal r /\ GenAI.text r = Some markdown /\ truthy markdown = true) \/
  (exists msg, responseTo answer = failure msg /\ msg <> EmptyString).
Proof.
  destruct answer as [r|e].
  - destruct (GenAI.text r) as [text|] eqn:Htext.
    + destruct (truthy text) eqn:Htruthy.
      * left. now exists r, text.
      * right. exists noResponse. unfold responseTo. now rewrite Htext, Htruthy.
    + right. exists noResponse. unfold responseTo. now rewrite Htext.
  - right. eexists. split; [reflexivity | apply or_else_unexpected_nonempty].
Qed.

(** X6. When the answer awaited by a submission arrives, whatever was
    handled while it was pending, the handler ends in exactly one of two
    ways and the session is no longer analyzing; the text, the image and
    the mode are as they are at that moment.  With a non-empty text as
    answer: the answer is displayed, the error slot is left as it is, and
    the history becomes one new item, carrying the answer and the text of
    the render that submitted, in front of the history of that render.
    Otherwise: a non-empty error is shown, and the history, the displayed
    response, the storage and the clock are left as they are. *)
Theorem arriving_answer_succeeds_or_fails (render : App.AppState)
    (answer : Completion GenAI.GenerateContentResponse) (w : App.World) :
  exists w',
    App.handleSubmit_resume env render answer w = (Normal tt, w') /\
    App.isAnalyzing (App.app w') = false /\
    App.inputText (App.app w') = App.inputText (App.app w) /\
    App.selectedImage (App.app w') = App.selectedImage (App.app w) /\
    App.selectedMode (App.app w') = App.selectedMode (App.app w) /\
    ((exists r markdown item,
        answer = Normal r /\ GenAI.text r = Some markdown /\ markdown <> EmptyString /\
        App.responseContent (App.app w') = markdown /\
        App.error (App.app w') = App.error (App.app w) /\
        App.history (App.app w') = item :: App.history render /\
        HistoryItem.response item = markdown /\
        HistoryItem.inputText item = App.inputText render /\
        HistoryItem.mode item = App.selectedMode render) \/
     (exists msg,
        msg <> EmptyString /\
        responseTo answer = failure msg /\
        App.error (App.app w') = Some msg /\
        App.responseContent (App.app w') = App.responseContent (App.app w) /\
        App.history (App.app w') = App.history (App.app w) /\
        localStorage (App.browser w') = localStorage (App.browser w) /\
        clockReads (App.browser w') = clockReads (App.browser w))).
Proof.
  destruct (responseTo_cases answer)
    as [(r & markdown & -> & Htext & Htruthy) | (msg & Hresponse & Hmsg)].
  - rewrite (handleSubmit_resume_succeeded render w r markdown Htext Htruthy).
    eexists. split; [reflexivity|]. cbn. repeat split.
    left. eexists r, markdown, _. repeat split; [exact Htext | now apply truthy_true_iff].
  - destruct (handleSubmit_resume_failed render w answer msg Hresponse Hmsg) as [e ->].
    eexists. split; [reflexivity|]. cbn. repeat split.
    right. exists msg. repeat split; assumption.
Qed.


End Resumption.

Lemma arriving_answer_succeeds_or_fails_witness :
  exists w',
    App.handleSubmit_resume Samples.envOk (App.app Scenarios.worldWithHistory)
      (Throw (Error "503 Service Unavailable"))
      (exec (App.clearHistory Samples.envOk) Scenarios.worldWithHistory) = (Normal tt, w') /\
    App.error (App.app w') = Some "503 Service Unavailable" /\
    App.history (App.app w') = [].
Proof.
  destruct (arriving_answer_succeeds_or_fails Samples.envOk (App.app Scenarios.worldWithHistory)
              (Throw (Error "503 Service Unavailable"))
              (exec (App.clearHistory Samples.envOk) Scenarios.worldWithHistory))
    as (w' & Hrun & _ & _ & _ & _ & [(r & markdown & item & Hanswer & _)
                                    | (msg & _ & Hresponse & Herror & _ & Hhistory & _)]);
    [discriminate|].
  exists w'. split; [exact Hrun|]. split.
  - rewrite Herror. now injection Hresponse as <-.
  - rewrite Hhistory. reflexivity.
Defined.


(** C4. The code does not keep the claim when something else is handled
    while the request is pending.  Two interactions are saved and a
    question is typed; the form is submitted; while the request is pending
    the user presses "Clear All" and confirms, which empties the history
    and removes it from the storage; then the answer arrives.  The
    suspended handler puts its new item in front of the history of its own
    render: the two cleared items are back in memory and in the storage,
    and the history goes from no item to three, instead of the new item
    alone. *)
Theorem cleared_history_comes_back :
  App.history (App.app (Session.world Overlap.start))
    = [Scenarios.imageAndTextItem; Samples.pastItem] /\
  Session.pending (Session.run Samples.envOk [Session.Submit] Overlap.start)
    = [ {| Session.closure := App.app Scenarios.worldWithHistory;
           Session.answer := Normal {| GenAI.text := Some "## Result" |} |} ] /\
  App.history
    (App.app (Session.world
       (Session.run Samples.envOk [Session.Submit; Session.ClearAll] Overlap.start))) = [] /\
  localStorage
    (App.browser (Session.world
       (Session.run Samples.envOk [Session.Submit; Session.ClearAll] Overlap.start)))
    !! App.storageKey = None /\
  App.history
    (App.app (Session.world
       (Session.run Samples.envOk
          [Session.Submit; Session.ClearAll; Session.AnswerArrives 0] Overlap.start)))
    = [Overlap.newItem; Scenarios.imageAndTextItem; Samples.pastItem] /\
  App.history
    (App.app (Session.world
       (Session.run Samples.envOk
          [Session.Submit; Session.ClearAll; Session.AnswerArrives 0] Overlap.start)))
    <> [Overlap.newItem] /\
  localStorage
    (App.browser (Session.world
       (Session.run Samples.envOk
          [Session.Submit; Session.ClearAll; Session.AnswerArrives 0] Overlap.start)))
    !! App.storageKey
    = Some (JSON.stringify [Overlap.newItem; Scenarios.imageAndTextItem; Samples.pastItem]).
Proof.
  split; [reflexivity|]. split; [vm_compute; reflexivity|]. split; [vm_compute; reflexivity|].
  split; [vm_compute; reflexivity|]. split; [vm_compute; reflexivity|].
  split; [vm_compute; discriminate|]. vm_compute. reflexivity.
Qed.

(** Two submissions that overlap: both analyses succeed, and the item of
    the first one is overwritten by the second. *)
Lemma overlapping_submissions_keep_one_item :
  length
    (App.history
       (App.app (Session.world
          (Session.run Samples.envOk
             [Session.Submit; Session.Submit; Session.AnswerArrives 0; Session.AnswerArrives 0]
             (Session.idle Samples.worldWithText))))) = 1 /\
  length
    (App.history
       (App.app (Session.world
          (Session.run Samples.envOk
             [Session.Submit; Session.AnswerArrives 0; Session.Submit; Session.AnswerArrives 0]
             (Session.idle Samples.worldWithText))))) = 2.
Proof. split; vm_compute; reflexivity. Qed.
